(** * psycopg3: adaptation of PostgreSQL range types

    A shallow embedding of [psycopg3/types/range.py]: the [Range] value
    class, [RangeDumper], [RangeLoader] and [RangeInfo], with the
    properties the documentation states about them.

    Python values are modelled as follows.
    - [bytes] is a list of [Byte.byte]; [str] is [string]; [int] is [Z].
    - [None] in an [Optional[T]] attribute is [None] of [option T].
    - A call that may raise returns a [result]: [Ok v] for a returned
      value, [Raise e] for an exception of class [e].
    - A [dict] is a [gmap]. *)

From Stdlib Require Import ZArith Lia DecimalString.
From Stdlib.Strings Require Import Ascii String Byte.
From stdpp Require Import base tactics option list gmap strings.

Local Open Scope Z_scope.

(** ** Python runtime *)

(** Exception classes that range.py raises or lets through.  The messages
    are not modelled.  [DataError] is psycopg3's class for malformed
    data; [ProgrammingError] is raised by [RangeInfo._from_records];
    [UnboundLocalError] is what reading a local variable that was never
    assigned raises. *)
Inductive exn : Type :=
  | ValueError
  | KeyError
  | IndexError
  | TypeError
  | UnboundLocalError
  | DataError
  | ProgrammingError.

#[global] Instance exn_eq_dec : EqDecision exn.
Proof. solve_decision. Defined.

Inductive result (A : Type) : Type :=
  | Ok (a : A)
  | Raise (e : exn).
Arguments Ok {A} a.
Arguments Raise {A} e.

#[global] Instance result_ret : MRet result := fun A a => Ok a.
#[global] Instance result_bind : MBind result := fun A B f m =>
  match m with
  | Ok a => f a
  | Raise e => Raise e
  end.
#[global] Instance result_fmap : FMap result := fun A B f m =>
  match m with
  | Ok a => Ok (f a)
  | Raise e => Raise e
  end.

Definition bytes : Type := list byte.

#[global] Instance byte_eq_dec : EqDecision byte := Byte.byte_eq_dec.

(** A bytes literal: [B "empty"] is Python's [b"empty"]. *)
Definition B (s : string) : bytes := list_byte_of_string s.

(** [ord(c)] of a character, and the integer read by indexing bytes. *)
Definition ord (c : ascii) : Z := Z.of_N (N_of_ascii c).
Definition byte_int (b : byte) : Z := Z.of_N (Byte.to_N b).

(** [data[0]] and [data[-1]]: [IndexError] on an empty buffer. *)
Definition bytes_first (data : bytes) : result Z :=
  match data with
  | [] => Raise IndexError
  | b :: _ => Ok (byte_int b)
  end.

Definition bytes_last (data : bytes) : result Z :=
  match last data with
  | None => Raise IndexError
  | Some b => Ok (byte_int b)
  end.

(** [data[1:-1]]: slicing never raises. *)
Definition bytes_inner (data : bytes) : bytes :=
  removelast (tail data).

(** [s[i] == c] for a [str] [s].  Out of range the comparison is given
    as [false]; Python raises [IndexError] there, which objects built by
    [Range.__init__] never reach (their flag is empty or two characters
    long, and every index below is guarded by [not self._bounds]). *)
Definition str_at_is (s : string) (i : nat) (c : ascii) : bool :=
  match String.get i s with
  | Some a => Ascii.eqb a c
  | None => false
  end.

(** [bool(s)] for a [str]. *)
Definition str_bool (s : string) : bool :=
  match s with
  | EmptyString => false
  | String _ _ => true
  end.

(** The classes that matter to [isinstance(item, int)] and to the keys of
    [get_key], with Python's single-inheritance chain: [bool] derives
    from [int], and [datetime] from [date]. *)
Inductive pytype : Type :=
  | ty_object | ty_int | ty_bool | ty_float | ty_str
  | ty_Decimal | ty_date | ty_datetime | ty_Range.

#[global] Instance pytype_eq_dec : EqDecision pytype.
Proof. solve_decision. Defined.

Definition base_of (c : pytype) : option pytype :=
  match c with
  | ty_object => None
  | ty_bool => Some ty_int
  | ty_datetime => Some ty_date
  | _ => Some ty_object
  end.

(** [issubclass(c, d)]: walk the bases of [c]; the chain is at most three
    classes long. *)
Fixpoint issubclass_fuel (n : nat) (c d : pytype) : bool :=
  if bool_decide (c = d) then true
  else match n, base_of c with
       | S n', Some c' => issubclass_fuel n' c' d
       | _, _ => false
       end.

Definition issubclass (c d : pytype) : bool := issubclass_fuel 3 c d.

(** The rich comparisons of the element type [T] of a [Range[T]]:
    [==], [<], [<=], [>], [>=], its class, and its [hash]. *)
Class PyElem (T : Type) : Type := {
  py_eq : T -> T -> bool;
  py_lt : T -> T -> bool;
  py_le : T -> T -> bool;
  py_gt : T -> T -> bool;
  py_ge : T -> T -> bool;
  py_type : T -> pytype;
  py_hash : T -> Z;
}.

(** [isinstance(x, c)]. *)
Definition isinstance {T} `{PyElem T} (x : T) (c : pytype) : bool :=
  issubclass (py_type x) c.

(** The element type is ordered: the four order comparisons are those of
    one total order. *)
Class PyOrdered (T : Type) `{PyElem T} : Prop := {
  py_ge_not_lt : forall x y : T, py_ge x y = negb (py_lt x y);
  py_gt_not_le : forall x y : T, py_gt x y = negb (py_le x y);
}.

(** The element type honours Python's hash contract. *)
Class PyHashable (T : Type) `{PyElem T} : Prop := {
  py_hash_eq : forall x y : T, py_eq x y = true -> py_hash x = py_hash y;
}.

(** CPython's hash of an [int] on a 64-bit build. *)
Definition int_hash (z : Z) : Z :=
  let m := 2 ^ 61 - 1 in
  let h := Z.sgn z * (Z.abs z mod m) in
  if h =? -1 then -2 else h.

#[global] Instance int_elem : PyElem Z := {
  py_eq := Z.eqb;
  py_lt := Z.ltb;
  py_le := Z.leb;
  py_gt := Z.gtb;
  py_ge := Z.geb;
  py_type := fun _ => ty_int;
  py_hash := int_hash;
}.

#[global] Instance bool_elem : PyElem bool := {
  py_eq := fun a b => Z.eqb (Z.b2z a) (Z.b2z b);
  py_lt := fun a b => Z.ltb (Z.b2z a) (Z.b2z b);
  py_le := fun a b => Z.leb (Z.b2z a) (Z.b2z b);
  py_gt := fun a b => Z.gtb (Z.b2z a) (Z.b2z b);
  py_ge := fun a b => Z.geb (Z.b2z a) (Z.b2z b);
  py_type := fun _ => ty_bool;
  py_hash := fun a => int_hash (Z.b2z a);
}.

(** ** The Range class *)

Module Range.

Record t (T : Type) : Type := mk {
  _lower : option T;
  _upper : option T;
  _bounds : string;
}.
Arguments mk {T} _ _ _.
Arguments _lower {T} _.
Arguments _upper {T} _.
Arguments _bounds {T} _.

(** The tuple [("[)", "(]", "()", "[]")] of [__init__]. *)
Definition valid_bounds : list string := ["[)"; "(]"; "()"; "[]"]%string.

Section Methods.
Context {T : Type} `{PyElem T}.

Definition __init__ (lower upper : option T) (bounds : string)
    (empty : bool) : result (t T) :=
  if negb empty then
    if negb (bool_decide (bounds ∈ valid_bounds)) then Raise ValueError
    else Ok (mk lower upper bounds)
  else Ok (mk None None "").

Definition lower (self : t T) : option T := _lower self.
Definition upper (self : t T) : option T := _upper self.

Definition isempty (self : t T) : bool := negb (str_bool (_bounds self)).

(** [x is None]. *)
Definition is_None {A} (x : option A) : bool :=
  match x with None => true | Some _ => false end.

Definition lower_inf (self : t T) : bool :=
  if negb (str_bool (_bounds self)) then false
  else is_None (_lower self).

Definition upper_inf (self : t T) : bool :=
  if negb (str_bool (_bounds self)) then false
  else is_None (_upper self).

Definition lower_inc (self : t T) : bool :=
  if negb (str_bool (_bounds self)) || is_None (_lower self) then false
  else str_at_is (_bounds self) 0 "[".

Definition upper_inc (self : t T) : bool :=
  if negb (str_bool (_bounds self)) || is_None (_upper self) then false
  else str_at_is (_bounds self) 1 "]".

(** [__contains__]: each [return False] of the source is a [false]
    branch, in the order the source tests them. *)
Definition __contains__ (self : t T) (x : T) : bool :=
  if negb (str_bool (_bounds self)) then false
  else
    if match _lower self with
       | Some lo =>
           if str_at_is (_bounds self) 0 "[" then py_lt x lo
           else py_le x lo
       | None => false
       end
    then false
    else
      if match _upper self with
         | Some up =>
             if str_at_is (_bounds self) 1 "]" then py_gt x up
             else py_ge x up
         | None => false
         end
      then false
      else true.

Definition __bool__ (self : t T) : bool := str_bool (_bounds self).

(** [a == b] on two [Optional[T]] attributes: [None] equals only
    [None]. *)
Definition opt_eq (a b : option T) : bool :=
  match a, b with
  | None, None => true
  | Some x, Some y => py_eq x y
  | _, _ => false
  end.

(** [__eq__] and [__lt__] on another [Range]; for any other object the
    source answers [False] and [NotImplemented]. *)
Definition __eq__ (self other : t T) : bool :=
  opt_eq (_lower self) (_lower other)
  && opt_eq (_upper self) (_upper other)
  && String.eqb (_bounds self) (_bounds other).

Definition __ne__ (self other : t T) : bool := negb (__eq__ self other).

(** The value [getattr(self, attr)] of a slot: [None], an element, or the
    flag string. *)
Inductive slot : Type := slot_lower | slot_upper | slot_bounds.

Inductive attr_value : Type :=
  | attr_None
  | attr_elem (x : T)
  | attr_str (s : string).

Definition __slots__ : list slot := [slot_lower; slot_upper; slot_bounds].

Definition of_option (o : option T) : attr_value :=
  match o with None => attr_None | Some x => attr_elem x end.

Definition getattr (self : t T) (attr : slot) : attr_value :=
  match attr with
  | slot_lower => of_option (_lower self)
  | slot_upper => of_option (_upper self)
  | slot_bounds => attr_str (_bounds self)
  end.

Definition attr_eq (a b : attr_value) : bool :=
  match a, b with
  | attr_None, attr_None => true
  | attr_elem x, attr_elem y => py_eq x y
  | attr_str s, attr_str s' => String.eqb s s'
  | _, _ => false
  end.

(** [a < b] where neither is [None]; the two values of one slot are both
    elements or both strings. *)
Definition attr_lt (a b : attr_value) : bool :=
  match a, b with
  | attr_elem x, attr_elem y => py_lt x y
  | attr_str s, attr_str s' => String.ltb s s'
  | _, _ => false
  end.

Definition attr_is_None (a : attr_value) : bool :=
  match a with attr_None => true | _ => false end.

(** The [for attr in ...] loop of [__lt__]. *)
Fixpoint lt_loop (attrs : list slot) (self other : t T) : bool :=
  match attrs with
  | [] => false
  | attr :: rest =>
      let self_value := getattr self attr in
      let other_value := getattr other attr in
      if attr_eq self_value other_value then lt_loop rest self other
      else if attr_is_None self_value then true
      else if attr_is_None other_value then false
      else attr_lt self_value other_value
  end.

Definition __lt__ (self other : t T) : bool := lt_loop __slots__ self other.

Definition __le__ (self other : t T) : bool :=
  if __eq__ self other then true else __lt__ self other.

Definition __gt__ (self other : t T) : bool := __lt__ other self.

Definition __ge__ (self other : t T) : bool :=
  if __eq__ self other then true else __gt__ self other.

(** [hash((self._lower, self._upper, self._bounds))].  The interpreter's
    hash of [None], of a [str] and of a tuple (a function of the hashes
    of its items) are parameters. *)
Section Hash.
Variable hash_None : Z.
Variable hash_str : string -> Z.
Variable hash_tuple : list Z -> Z.

Definition hash_opt (o : option T) : Z :=
  match o with None => hash_None | Some x => py_hash x end.

Definition __hash__ (self : t T) : Z :=
  hash_tuple [hash_opt (_lower self); hash_opt (_upper self);
              hash_str (_bounds self)].
End Hash.

End Methods.
End Range.

(** ** The collaborators of the dumper and the loader *)

(** An element dumper as [RangeDumper] sees it: the class it was
    registered for, its oid and its [dump] method. *)
Record Dumper (T : Type) : Type := mkDumper {
  d_cls : pytype;
  d_oid : Z;
  d_dump : T -> bytes;
}.
Arguments mkDumper {T} _ _ _.
Arguments d_cls {T} _.
Arguments d_oid {T} _.
Arguments d_dump {T} _.

(** A row of the builtin range catalog, and a row answered by the
    catalog query of [RangeInfo]. *)
Module RangeInfo.

(** Modelled from the spec: the [TypeInfo] constructor that [RangeInfo]
    inherits (oids.py is not among the sources).  The record holds
    [name], [oid], [array_oid] and the element type's oid, which
    [register] reads as [self.range_subtype]; the constructor stores its
    four positional arguments in that order. *)
Record t : Type := mk {
  name : string;
  oid : Z;
  array_oid : Z;
  range_subtype : Z;
}.

(** The four columns selected by [_info_query]. *)
Definition row : Type := (string * Z * Z * Z)%type.

Definition _from_records (recs : list row) : result (option t) :=
  match recs with
  | [] => Ok None
  | rec0 :: more =>
      if bool_decide (1 < Z.of_nat (length recs)) then Raise ProgrammingError
      else
        let '(name, oid, array_oid, subtype) := rec0 in
        Ok (Some (mk name oid array_oid subtype))
  end.

(** [fetch]: the name is a [str] or an [sql.Composable] rendered by
    [as_string]; [execute] stands for [cur.execute] followed by
    [cur.fetchall] over the connection. *)
Section Fetch.
Context {Composable : Type}.
Variable as_string : Composable -> string.
Variable execute : string -> list row.

Definition fetch (name : string + Composable) : result (option t) :=
  let name :=
    match name with
    | inl s => s
    | inr ident => as_string ident
    end in
  let recs := execute name in
  _from_records recs.
End Fetch.

End RangeInfo.

(** Modelled from the spec: [builtins.get_range] of the absent oids.py,
    "a static table mapping well-known element oids to their standard
    range type oid".  The table is a dictionary from the element oid to
    the range type's row; [get_range] answers [None] for an oid that has
    no row. *)
Definition get_range (builtins : gmap Z RangeInfo.t) (sub_oid : Z)
    : option RangeInfo.t :=
  builtins !! sub_oid.

(** ** The composite codec shared with record types *)

Module Composite.

(** The bytes the codec gives a meaning: the separator [,] (44), the
    double quote (34), the backslash (92) and the closing parenthesis
    (41). *)
Definition comma : byte := x2c.
Definition dquote : byte := x22.
Definition backslash : byte := x5c.
Definition rparen : byte := x29.

Section Dump.
Context {T : Type}.
(** [self._tx.get_dumper(item, Format.TEXT).dump(item)]. *)
Variable dump_item : T -> bytes.
(** [self._re_needs_quotes.search(ad)], the class attribute that
    [RangeDumper] sets. *)
Variable needs_quotes : bytes -> bool.

(** Modelled from the spec: the escaping of the "quoted/escaped token
    sequence", [_re_esc.sub] of the absent composite.py: every
    backslash and every double quote is written twice. *)
Definition is_esc (c : byte) : bool :=
  bool_decide (c = backslash \/ c = dquote).

Fixpoint _re_esc_sub (ad : bytes) : bytes :=
  match ad with
  | [] => []
  | c :: rest =>
      if is_esc c then c :: c :: _re_esc_sub rest
      else c :: _re_esc_sub rest
  end.

(** Modelled from the spec: the text of a present element on the wire.
    An empty text is written as two double quotes; a text in which
    [_re_needs_quotes] finds a byte is written escaped between double
    quotes; any other text is written as it is. *)
Definition quoted (ad : bytes) : bytes :=
  match ad with
  | [] => [dquote; dquote]
  | _ :: _ =>
      if needs_quotes ad then dquote :: _re_esc_sub ad ++ [dquote]
      else ad
  end.

(** Modelled from the spec: the list [parts] that the loop over the
    items appends to: the separator alone for [None], the text and the
    separator for any other item. *)
Fixpoint parts_of (obj : list (option T)) (sep : bytes) : list bytes :=
  match obj with
  | [] => []
  | None :: rest => sep :: parts_of rest sep
  | Some item :: rest => quoted (dump_item item) :: sep :: parts_of rest sep
  end.

(** Modelled from the spec: [SequenceDumper._dump_sequence] of
    composite.py, which is not among the sources,
    [encode(sequence, open_delim, close_delim, separator)]: the two
    delimiters alone for an empty sequence; otherwise the opening
    delimiter and the parts, the last separator being replaced by the
    closing delimiter ([parts[-1] = end]), joined. *)
Definition _dump_sequence (obj : list (option T)) (start end_ sep : bytes)
    : bytes :=
  match obj with
  | [] => start ++ end_
  | _ :: _ =>
      let parts := start :: parts_of obj sep in
      List.concat (removelast parts ++ [end_])
  end.
End Dump.

(** A match of [_re_tokenize]: the text matched and its three groups,
    [None] for a group that took no part in the match. *)
Record rmatch : Type := mk_match {
  group0 : bytes;
  group1 : option bytes;
  group2 : option bytes;
  group3 : option bytes;
}.

(** Modelled from the spec: the body of a quoted token, that is the
    longest run of bytes other than a double quote and of pairs of
    double quotes that a double quote follows, with what comes after
    that closing quote; [None] when no closing quote is found.  The run
    is as long as can be: a pair of quotes is read as a pair unless no
    closing quote follows it, in which case its first quote closes. *)
Fixpoint scan_quoted (s : bytes) : option (bytes * bytes) :=
  match s with
  | [] => None
  | c :: t =>
      if bool_decide (c = dquote) then
        match t with
        | c' :: t' =>
            if bool_decide (c' = dquote) then
              match scan_quoted t' with
              | Some (body, rest) => Some (c :: c' :: body, rest)
              | None => Some ([], t)
              end
            else Some ([], t)
        | [] => Some ([], t)
        end
      else
        match scan_quoted t with
        | Some (body, rest) => Some (c :: body, rest)
        | None => None
        end
  end.

(** Modelled from the spec: a byte of an unquoted token, any byte but a
    double quote, a comma and a closing parenthesis; and the longest
    run of such bytes at the head of a text. *)
Definition is_plain (c : byte) : bool :=
  negb (bool_decide (c = dquote \/ c = comma \/ c = rparen)).

Fixpoint span_plain (s : bytes) : bytes * bytes :=
  match s with
  | [] => ([], [])
  | c :: t =>
      if is_plain c then
        let '(run, rest) := span_plain t in (c :: run, rest)
      else ([], s)
  end.

(** The optional comma that ends a token. *)
Definition opt_comma (s : bytes) : bytes :=
  match s with
  | c :: _ => if bool_decide (c = comma) then [comma] else []
  | [] => []
  end.

(** Modelled from the spec: [_re_tokenize] tried at the head of a text.
    Its alternatives, in order: a comma alone, which stands for NULL
    (group 1); a quoted token and an optional comma (group 2 is the
    body); an unquoted token and an optional comma (group 3). *)
Definition match_at (s : bytes) : option rmatch :=
  match s with
  | [] => None
  | c :: t =>
      if bool_decide (c = comma) then
        Some (mk_match [comma] (Some [comma]) None None)
      else if bool_decide (c = dquote) then
        match scan_quoted t with
        | Some (body, rest) =>
            Some (mk_match (dquote :: body ++ dquote :: opt_comma rest)
                    None (Some body) None)
        | None => None
        end
      else if is_plain c then
        let '(run, rest) := span_plain s in
        Some (mk_match (run ++ opt_comma rest) None None (Some run))
      else None
  end.

(** Modelled from the spec: [_re_tokenize.finditer(data)], the matches
    from left to right.  [skip] counts the bytes still covered by the
    last match; where no alternative matches, the search moves on by
    one byte. *)
Fixpoint finditer_from (s : bytes) (skip : nat) : list rmatch :=
  match s with
  | [] => []
  | c :: t =>
      match skip with
      | S k => finditer_from t k
      | O =>
          match match_at s with
          | Some m => m :: finditer_from t (length (group0 m) - 1)
          | None => finditer_from t 0
          end
      end
  end.

Definition finditer (data : bytes) : list rmatch := finditer_from data 0.

(** Modelled from the spec: the unescaping of a quoted token,
    [_re_undouble.sub]: a backslash or a double quote written twice is
    read once. *)
Fixpoint _re_undouble_sub (s : bytes) : bytes :=
  match s with
  | [] => []
  | c :: t =>
      match t with
      | c' :: t' =>
          if is_esc c && bool_decide (c' = c) then c :: _re_undouble_sub t'
          else c :: _re_undouble_sub t
      | [] => [c]
      end
  end.

(** Modelled from the spec: what the loop yields for a match, "either a
    present-value substring or an absent-value sentinel": [None] for
    group 1, the unescaped body for group 2, else group 3. *)
Definition token_of (m : rmatch) : option bytes :=
  match group1 m with
  | Some (_ :: _) => None
  | _ =>
      match group2 m with
      | Some body => Some (_re_undouble_sub body)
      | None => group3 m
      end
  end.

(** [text.endswith(b",")]. *)
Definition ends_with_comma (text : bytes) : bool :=
  match last text with
  | Some c => bool_decide (c = comma)
  | None => false
  end.

(** Modelled from the spec: [BaseCompositeLoader._parse_record] of
    composite.py, which is not among the sources,
    [decode(interior_bytes)], as the items the generator produces in
    order: a token for each match, and then one more [None] when the
    last match ended in a comma.  That last test reads the loop
    variable, which was never assigned when there was no match: the
    generator then raises [UnboundLocalError]. *)
Definition _parse_record (data : bytes) : list (result (option bytes)) :=
  let matches := finditer data in
  ((fun m => Ok (token_of m)) <$> matches)
  ++ match last matches with
     | None => [Raise UnboundLocalError]
     | Some m => if ends_with_comma (group0 m) then [Ok None] else []
     end.

End Composite.

(** ** RangeDumper *)

Module RangeDumper.

Record t (T : Type) : Type := mk {
  cls : pytype;
  sub_dumper : option (Dumper T);
  oid : Z;
}.
Arguments mk {T} _ _ _.
Arguments cls {T} _.
Arguments sub_dumper {T} _.
Arguments oid {T} _.

(** A byte of the character class of [_re_needs_quotes]: a double quote
    (34), a comma (44), a backslash (92), the white space of [\s] on
    bytes (9 to 13 and 32), a parenthesis (40, 41) or a square bracket
    (91, 93). *)
Definition needs_quotes_byte (c : byte) : bool :=
  bool_decide (byte_int c ∈
    [34; 44; 92; 9; 10; 11; 12; 13; 32; 40; 41; 91; 93]).

(** [_re_needs_quotes.search(ad)]. *)
Definition _re_needs_quotes (ad : bytes) : bool :=
  existsb needs_quotes_byte ad.

Section Methods.
Context {T : Type} `{PyElem T}.

(** [self._tx.get_dumper(item, Pg3Format.TEXT)]. *)
Variable get_dumper : T -> Dumper T.
(** [INVALID_OID] and [builtins] of the absent oids.py, and the oid a
    freshly built dumper carries. *)
Variable INVALID_OID : Z.
Variable builtins : gmap Z RangeInfo.t.
Variable default_oid : Z.

(** [RangeDumper(cls, context)]. *)
Definition __init__ (cls : pytype) : t T := mk cls None default_oid.

Definition dump (self : t T) (obj : Range.t T) : bytes :=
  if negb (Range.__bool__ obj) then B "empty"
  else
    Composite._dump_sequence (fun item => d_dump (get_dumper item) item)
      _re_needs_quotes
      [Range.lower obj; Range.upper obj]
      (if Range.lower_inc obj then B "[" else B "(")
      (if Range.upper_inc obj then B "]" else B ")")
      (B ",").

Definition _get_item (obj : Range.t T) : option T :=
  let rv := Range.lower obj in
  match rv with
  | Some _ => rv
  | None => Range.upper obj
  end.

Definition _get_range_oid (sub_oid : Z) : Z :=
  let info := get_range builtins sub_oid in
  match info with
  | Some info => RangeInfo.oid info
  | None => INVALID_OID
  end.

Definition get_key (self : t T) (obj : Range.t T) : list pytype :=
  match _get_item obj with
  | Some item =>
      let sd := get_dumper item in
      [cls self; d_cls sd]
  | None => [cls self]
  end.

Definition upgrade (self : t T) (obj : Range.t T) : t T :=
  match _get_item obj with
  | None => __init__ (cls self)
  | Some item =>
      let sd := get_dumper item in
      let dumper := __init__ (cls self) in
      let dumper := mk (cls dumper) (Some sd) (oid dumper) in
      if negb (isinstance item ty_int) then
        mk (cls dumper) (sub_dumper dumper) (_get_range_oid (d_oid sd))
      else
        mk (cls dumper) (sub_dumper dumper) INVALID_OID
  end.

End Methods.
End RangeDumper.

(** ** RangeLoader *)

Module RangeLoader.

(** [_int2parens = {ord(c): c for c in "[]()"}]. *)
Definition _int2parens : gmap Z string :=
  list_to_map ((fun c => (ord c, String c EmptyString))
                 <$> list_ascii_of_string "[]()").

(** [d[k]] on a dictionary: [KeyError] for a missing key. *)
Definition dict_getitem {V} (d : gmap Z V) (k : Z) : result V :=
  match d !! k with
  | Some v => Ok v
  | None => Raise KeyError
  end.

(** [a, b = gen]: the generator is consumed item by item, an item that
    raises (in the element loader or in the parser that feeds the
    generator) stops the unpacking with its exception, and [ValueError] is
    raised once the generator is seen to hold fewer or more than two
    items (the third item is computed before its presence is an
    error). *)
Definition unpack2 {A} (items : list (result A)) : result (A * A) :=
  match items with
  | [] => Raise ValueError
  | i1 :: rest =>
      x ← i1;
      match rest with
      | [] => Raise ValueError
      | i2 :: rest' =>
          y ← i2;
          match rest' with
          | [] => Ok (x, y)
          | i3 :: _ => _ ← i3; Raise ValueError
          end
      end
  end.

Section Methods.
Context {T : Type} `{PyElem T}.

(** [self._tx.get_loader(oid, format=Format.TEXT).load]. *)
Variable get_loader : Z -> bytes -> result T.
Variable subtype_oid : Z.

Definition load (data : bytes) : result (Range.t T) :=
  if bool_decide (data = B "empty") then
    Range.__init__ None None "[)" true
  else
    let cast := get_loader subtype_oid in
    lo ← (c ← bytes_first data; dict_getitem _int2parens c);
    hi ← (c ← bytes_last data; dict_getitem _int2parens c);
    let bounds := (lo ++ hi)%string in
    '(min, max) ← unpack2
      ((fun item : result (option bytes) =>
          token ← item;
          match token with
          | Some token => Some <$> cast token
          | None => Ok None
          end) <$> Composite._parse_record (bytes_inner data));
    Range.__init__ min max bounds false.

End Methods.
End RangeLoader.

(** ** The documented behaviour, written out

    The definitions of this section follow the wording of the
    documentation, not the code; the theorems below compare them with
    the methods above. *)

Module Documented.
Section Documented.
Context {T : Type} `{PyElem T}.

(** Membership: the lower-bound check is [x >= lower] when the lower
    bound is included and [x > lower] when it is not; no lower bound, no
    constraint.  Likewise [x <= upper] or [x < upper] above. *)
Definition passes_lower (r : Range.t T) (x : T) : bool :=
  match Range.lower r with
  | None => true
  | Some lo => if Range.lower_inc r then py_ge x lo else py_gt x lo
  end.

Definition passes_upper (r : Range.t T) (x : T) : bool :=
  match Range.upper r with
  | None => true
  | Some up => if Range.upper_inc r then py_le x up else py_lt x up
  end.

Definition member (r : Range.t T) (x : T) : bool :=
  if Range.isempty r then false
  else passes_lower r x && passes_upper r x.

(** Membership as the comparisons of the code decide it: [x] is kept by
    the lower bound unless [x < lower] holds (bound included) or
    [x <= lower] holds (bound not included), and by the upper bound
    unless [x > upper], or [x >= upper], holds. *)
Definition kept_by_lower (r : Range.t T) (x : T) : bool :=
  match Range.lower r with
  | None => true
  | Some lo =>
      if Range.lower_inc r then negb (py_lt x lo) else negb (py_le x lo)
  end.

Definition kept_by_upper (r : Range.t T) (x : T) : bool :=
  match Range.upper r with
  | None => true
  | Some up =>
      if Range.upper_inc r then negb (py_gt x up) else negb (py_ge x up)
  end.

Definition member_unless_excluded (r : Range.t T) (x : T) : bool :=
  if Range.isempty r then false
  else kept_by_lower r x && kept_by_upper r x.

(** Ordering: the verdict at a bound where the two ranges differ. *)
Definition bound_verdict (a b : option T) : bool :=
  match a, b with
  | None, _ => true
  | Some _, None => false
  | Some x, Some y => py_lt x y
  end.

(** Ordering: [lower], then [upper], then [bounds]; the first differing
    field decides, and ranges with no differing field are not below one
    another. *)
Definition less (a b : Range.t T) : bool :=
  if negb (Range.opt_eq (Range.lower a) (Range.lower b)) then
    bound_verdict (Range.lower a) (Range.lower b)
  else if negb (Range.opt_eq (Range.upper a) (Range.upper b)) then
    bound_verdict (Range.upper a) (Range.upper b)
  else if negb (String.eqb (Range._bounds a) (Range._bounds b)) then
    String.ltb (Range._bounds a) (Range._bounds b)
  else false.


(** The bound a dumper looks at to choose its oid: [lower] if there is
    one, else [upper]. *)
Definition representative (r : Range.t T) (item : T) : Prop :=
  Range.lower r = Some item
  \/ (Range.lower r = None /\ Range.upper r = Some item).

(** The rule for the oid of an upgraded dumper: unknown for an [int]
    element, else the range oid the catalog has for the element
    dumper's oid, else unknown. *)
Definition upgraded_oid (INVALID_OID : Z) (builtins : gmap Z RangeInfo.t)
    (get_dumper : T -> Dumper T) (item : T) : Z :=
  if isinstance item ty_int then INVALID_OID
  else match get_range builtins (d_oid (get_dumper item)) with
       | Some info => RangeInfo.oid info
       | None => INVALID_OID
       end.

(** The wire text of a non-empty range: the bracket of the lower bound,
    the two element texts around a comma, the bracket of the upper
    bound; an absent bound has no text. *)
Definition bound_text (get_dumper : T -> Dumper T) (o : option T) : bytes :=
  match o with
  | None => []
  | Some x => d_dump (get_dumper x) x
  end.

Definition wire_text (get_dumper : T -> Dumper T) (r : Range.t T) : bytes :=
  (if Range.lower_inc r then B "[" else B "(")
  ++ bound_text get_dumper (Range.lower r)
  ++ B ","
  ++ bound_text get_dumper (Range.upper r)
  ++ (if Range.upper_inc r then B "]" else B ")").


(** The wire text with the element texts as the codec writes them: as
    they are, or between double quotes with every double quote and
    backslash doubled when the text is empty or has a byte of
    [_re_needs_quotes]. *)
Definition bound_token (get_dumper : T -> Dumper T) (o : option T) : bytes :=
  match o with
  | None => []
  | Some x =>
      Composite.quoted RangeDumper._re_needs_quotes (d_dump (get_dumper x) x)
  end.

Definition wire_tokens (get_dumper : T -> Dumper T) (r : Range.t T) : bytes :=
  (if Range.lower_inc r then B "[" else B "(")
  ++ bound_token get_dumper (Range.lower r)
  ++ B ","
  ++ bound_token get_dumper (Range.upper r)
  ++ (if Range.upper_inc r then B "]" else B ")").

(** An element text that goes on the wire as it is: it is not empty and
    no byte of it asks for quotes. *)
Definition verbatim_text (ad : bytes) : bool :=
  negb (bool_decide (ad = [])) && negb (RangeDumper._re_needs_quotes ad).

(** A payload of two fields: the parser yields two tokens and no more. *)
Definition two_fields (payload : bytes) : bool :=
  match Composite._parse_record payload with
  | [Ok _; Ok _] => true
  | _ => false
  end.

(** A well-formed range text: an opening bracket, a payload of two
    fields, a closing bracket. *)
Definition well_formed (data : bytes) : bool :=
  match bytes_first data, bytes_last data with
  | Ok c, Ok c' =>
      bool_decide (c = ord "[" \/ c = ord "(")
      && bool_decide (c' = ord "]" \/ c' = ord ")")
      && two_fields (bytes_inner data)
  | _, _ => false
  end.

End Documented.
End Documented.

(** ** Example instances: ranges of [int] and of [bool] *)

Module Examples.

(** The text adaptation of [int]: [str(n).encode()] and [int(data)],
    restricted to the canonical decimal writing. *)
Definition int_text (n : Z) : bytes :=
  B (DecimalString.NilZero.string_of_int (Z.to_int n)).

Definition int_of_text (data : bytes) : result Z :=
  match DecimalString.NilZero.int_of_string (string_of_list_byte data) with
  | Some d => Ok (Z.of_int d)
  | None => Raise ValueError
  end.

(** PostgreSQL's oids of the builtin element types and of their range
    types, keyed by element oid. *)
Definition pg_builtins : gmap Z RangeInfo.t :=
  list_to_map
    [ (23, RangeInfo.mk "int4range" 3904 3905 23);
      (20, RangeInfo.mk "int8range" 3926 3927 20);
      (1700, RangeInfo.mk "numrange" 3906 3907 1700);
      (1082, RangeInfo.mk "daterange" 3912 3913 1082);
      (1114, RangeInfo.mk "tsrange" 3908 3909 1114);
      (1184, RangeInfo.mk "tstzrange" 3910 3911 1184) ].

Definition int_dumper : Dumper Z := mkDumper ty_int 23 int_text.
Definition bool_dumper : Dumper bool :=
  mkDumper ty_bool 16 (fun b : bool => if b then B "t" else B "f").

Definition int_get_loader (oid : Z) : bytes -> result Z := int_of_text.

Definition int_range (lo hi : Z) (bounds : string) : Range.t Z :=
  Range.mk (Some lo) (Some hi) bounds.

(** [float], restricted to the integral values and [nan]: a
    comparison with [nan] on either side is false, [==] included. *)
Inductive pyfloat : Type :=
  | fl (z : Z)
  | nan.

Definition float_cmp (op : Z -> Z -> bool) (a b : pyfloat) : bool :=
  match a, b with
  | fl x, fl y => op x y
  | _, _ => false
  end.

#[global] Instance float_elem : PyElem pyfloat := {
  py_eq := float_cmp Z.eqb;
  py_lt := float_cmp Z.ltb;
  py_le := float_cmp Z.leb;
  py_gt := float_cmp Z.gtb;
  py_ge := float_cmp Z.geb;
  py_type := fun _ => ty_float;
  py_hash := fun a => match a with fl z => int_hash z | nan => 0 end;
}.

(** [int] is ordered and hashable. *)
#[global] Instance int_ordered : PyOrdered Z.
Proof.
  split; intros x y; cbn.
  - rewrite Z.geb_leb, Z.leb_antisym. reflexivity.
  - rewrite Z.gtb_ltb, Z.ltb_antisym. reflexivity.
Qed.

#[global] Instance int_hashable : PyHashable Z.
Proof. split; intros x y Hxy; cbn in *. apply Z.eqb_eq in Hxy. congruence. Qed.

End Examples.

(** ** Further methods and laws *)

(** An element type whose [==] is equality and whose comparisons are
    those of one strict total order, as for [int], [date] or
    [Decimal]. *)
Class PyTotalOrder (T : Type) `{PyElem T} : Prop := {
  py_eq_spec : forall x y : T, py_eq x y = true <-> x = y;
  py_lt_irrefl : forall x : T, py_lt x x = false;
  py_lt_trans : forall x y z : T,
    py_lt x y = true -> py_lt y z = true -> py_lt x z = true;
  py_lt_total : forall x y : T,
    py_lt x y = true \/ x = y \/ py_lt y x = true;
  py_le_lt_eq : forall x y : T, py_le x y = py_lt x y || py_eq x y;
  py_gt_lt : forall x y : T, py_gt x y = py_lt y x;
  py_ge_le : forall x y : T, py_ge x y = py_le y x;
}.

Module Order.
Section Order.
Context {T : Type} `{PyElem T}.

(** The order of two bounds in which [None] comes first. *)
Definition opt_lt (a b : option T) : Prop :=
  match a, b with
  | None, Some _ => True
  | Some x, Some y => py_lt x y = true
  | _, None => False
  end.

(** The lexicographic order on [(lower, upper, bounds)]. *)
Definition lex_lt (a b : Range.t T) : Prop :=
  opt_lt (Range._lower a) (Range._lower b)
  \/ (Range._lower a = Range._lower b
      /\ (opt_lt (Range._upper a) (Range._upper b)
          \/ (Range._upper a = Range._upper b
              /\ String.ltb (Range._bounds a) (Range._bounds b) = true))).

(** The place of a flag among ["()"], ["(]"], ["[)"], ["[]"]. *)
Definition flag_rank (f : string) : nat :=
  if String.eqb f "()" then 0
  else if String.eqb f "(]" then 1
  else if String.eqb f "[)" then 2
  else 3.

End Order.
End Order.

(** The bounds for which a round trip through the wire text is
    stated. *)
Module RoundTrip.
Section RoundTrip.
Context {T : Type}.
Variable get_dumper : T -> Dumper T.
Variable get_loader : Z -> bytes -> result T.
Variable subtype_oid : Z.

(** A bound that the element loader reads back from its text. *)
Definition matched (o : option T) : Prop :=
  forall x, o = Some x ->
    get_loader subtype_oid (d_dump (get_dumper x) x) = Ok x.

End RoundTrip.
End RoundTrip.

(** [__str__] of a range.  [str_elem] is [str] on an element;
    [str(None)] is ["None"].  The index [self._bounds[i]] is the
    one-character string at [i]; out of range it is given as the empty
    string, where Python raises [IndexError] (never reached for a flag
    of two characters). *)
Module RangeText.
Section RangeText.
Context {T : Type}.
Variable str_elem : T -> string.

Definition str_opt (o : option T) : string :=
  match o with
  | None => "None"
  | Some x => str_elem x
  end.

Definition str_index (s : string) (i : nat) : string :=
  match String.get i s with
  | Some c => String c EmptyString
  | None => EmptyString
  end.

Definition __str__ (self : Range.t T) : string :=
  if negb (str_bool (Range._bounds self)) then "empty"
  else
    let items :=
      [ str_index (Range._bounds self) 0;
        str_opt (Range._lower self);
        ", "%string;
        str_opt (Range._upper self);
        str_index (Range._bounds self) 1 ] in
    String.concat "" items.

End RangeText.
End RangeText.

(** [__getstate__] and [__setstate__].  An instance is the store of the
    slots that are set, keyed by slot name; the state is the dictionary
    the comprehension builds, as the list of its items in insertion
    order. *)
Module RangeState.
Section RangeState.
Context {T : Type} `{PyElem T}.

Definition slot_names : list string := ["_lower"; "_upper"; "_bounds"]%string.

(** The instance behind a [Range.t]: the three slots are set. *)
Definition of_range (r : Range.t T) : gmap string (@Range.attr_value T) :=
  <["_lower"%string := Range.of_option (Range._lower r)]>
    (<["_upper"%string := Range.of_option (Range._upper r)]>
       (<["_bounds"%string := Range.attr_str (Range._bounds r)]> ∅)).

(** The range an instance stands for, when its slots hold a bound, a
    bound and a string. *)
Definition to_option (v : @Range.attr_value T) : option (option T) :=
  match v with
  | Range.attr_None => Some None
  | Range.attr_elem x => Some (Some x)
  | Range.attr_str _ => None
  end.

Definition to_range (o : gmap string (@Range.attr_value T))
    : option (Range.t T) :=
  lo ← (o !! "_lower"%string) ≫= to_option;
  hi ← (o !! "_upper"%string) ≫= to_option;
  b ← (o !! "_bounds"%string) ≫=
        (fun v => match v with Range.attr_str s => Some s | _ => None end);
  Some (Range.mk lo hi b).

(** [{slot: getattr(self, slot) for slot in self.__slots__
      if hasattr(self, slot)}]. *)
Definition __getstate__ (self : gmap string (@Range.attr_value T))
    : list (string * @Range.attr_value T) :=
  omap (fun slot => (fun v => (slot, v)) <$> self !! slot) slot_names.

(** The outcome of [__setstate__]: the instance once every item is set,
    or the instance as it stands when [setattr] raises: [TypeError] on
    [__class__], which none of the values a slot holds here (a bound,
    [None] or a string) can be assigned to, and [AttributeError] on any
    other name that is no slot, the class having no instance
    dictionary. *)
Inductive outcome : Type :=
  | Done (self : gmap string (@Range.attr_value T))
  | AttributeError (self : gmap string (@Range.attr_value T))
  | TypeError (self : gmap string (@Range.attr_value T)).

Fixpoint __setstate__ (state : list (string * @Range.attr_value T))
    (self : gmap string (@Range.attr_value T)) : outcome :=
  match state with
  | [] => Done self
  | (slot, value) :: rest =>
      if bool_decide (slot ∈ slot_names) then
        __setstate__ rest (<[slot := value]> self)
      else if String.eqb slot "__class__" then TypeError self
      else AttributeError self
  end.

End RangeState.
End RangeState.

(** The C helper [pg3_get_value] that the cffi build compiles:
    [PQgetlength], [PQgetvalue] and [PQgetisnull] are libpq's, the
    answer is the pointer returned ([None] for [NULL]) with the length
    stored through [length]. *)
Module PqCffi.
Section PqCffi.
Context {PGresult : Type}.
Variable PQgetlength : PGresult -> Z -> Z -> Z.
Variable PQgetvalue : PGresult -> Z -> Z -> bytes.
Variable PQgetisnull : PGresult -> Z -> Z -> Z.

Definition pg3_get_value (result : PGresult) (row column : Z)
    : option bytes * Z :=
  let length := PQgetlength result row column in
  if negb (length =? 0) then (Some (PQgetvalue result row column), length)
  else if negb (PQgetisnull result row column =? 0) then (None, length)
  else (Some [], length).

End PqCffi.
End PqCffi.

(** [int] is totally ordered. *)
#[global] Instance int_total_order : PyTotalOrder Z.
Proof.
  split; cbn.
  - intros x y. apply Z.eqb_eq.
  - intros x. apply Z.ltb_irrefl.
  - intros x y z Hxy Hyz. apply Z.ltb_lt in Hxy, Hyz. apply Z.ltb_lt. lia.
  - intros x y. rewrite !Z.ltb_lt. lia.
  - intros x y. destruct (Z.leb_spec x y), (Z.ltb_spec x y), (Z.eqb_spec x y);
      cbn; try reflexivity; lia.
  - intros x y. apply Z.gtb_ltb.
  - intros x y. apply Z.geb_leb.
Qed.

(** ** Properties of the Range class *)

Section RangeFacts.
Context {T : Type} `{PyElem T}.

Lemma init_valid (lo hi : option T) (b : string) :
  b ∈ Range.valid_bounds ->
  Range.__init__ lo hi b false = Ok (Range.mk lo hi b).
Proof.
  intros Hb. unfold Range.__init__. cbn.
  rewrite bool_decide_eq_true_2 by exact Hb. reflexivity.
Qed.

Lemma init_invalid (lo hi : option T) (b : string) :
  b ∉ Range.valid_bounds ->
  Range.__init__ lo hi b false = Raise ValueError.
Proof.
  intros Hb. unfold Range.__init__. cbn.
  rewrite bool_decide_eq_false_2 by exact Hb. reflexivity.
Qed.

Lemma opt_eq_hash hash_None (a b : option T) `{!PyHashable T} :
  Range.opt_eq a b = true ->
  Range.hash_opt hash_None a = Range.hash_opt hash_None b.
Proof.
  destruct a as [x|], b as [y|]; cbn; try discriminate; try reflexivity.
  apply py_hash_eq.
Qed.

End RangeFacts.

(** C7. [Range(lower, upper, bounds)] with [empty] false raises
    [ValueError] whenever [bounds] is none of the four flags; with
    [empty] true the object built has no lower bound, no upper bound and
    the empty string as flag, whatever the other arguments are. *)
Theorem init_rejects_or_empties (T : Type) (E : PyElem T)
    (lo hi : option T) (bounds : string) :
  (bounds <> "[)" /\ bounds <> "(]" /\ bounds <> "()" /\ bounds <> "[]" ->
     Range.__init__ lo hi bounds false = Raise ValueError)
  /\ Range.__init__ lo hi bounds true = Ok (Range.mk None None "").
Proof.
  split; [|reflexivity].
  intros (H1 & H2 & H3 & H4). apply init_invalid.
  unfold Range.valid_bounds. rewrite !elem_of_cons, elem_of_nil. tauto.
Qed.

Lemma init_rejects_or_empties_witness :
  Range.__init__ (Some 1) (Some 2) "[[" false = Raise ValueError
  /\ Range.__init__ (Some 1) (Some 2) "[[" true
     = Ok (Range.mk (None : option Z) None "").
Proof.
  destruct (init_rejects_or_empties Z int_elem (Some 1) (Some 2) "[[")
    as [Hraise Hempty].
  split; [apply Hraise; repeat split; discriminate | exact Hempty].
Defined.

(** C6. Membership in a range: never for an empty range; otherwise [x]
    is a member unless a bound excludes it.  The lower bound excludes
    [x] when [x < lower] (bound included) or [x <= lower] (bound not
    included), the upper bound when [x > upper] or [x >= upper]; a
    bound that is [None] excludes nothing.  Over an ordered element
    type this is the check [x >= lower] or [x > lower] below and
    [x <= upper] or [x < upper] above.  So 1 is in
    [Range(1, 10, "[)")], 10 and 0 are not, and 10 is in
    [Range(1, 10, "[]")]. *)
Theorem contains_unless_excluded :
  (forall (T : Type) (E : PyElem T) (r : Range.t T) (x : T),
     (Range.isempty r = true -> Range.__contains__ r x = false)
     /\ Range.__contains__ r x = Documented.member_unless_excluded r x)
  /\ (forall (T : Type) (E : PyElem T), PyOrdered T ->
        forall (r : Range.t T) (x : T),
          Range.__contains__ r x = Documented.member r x)
  /\ Range.__contains__ (Examples.int_range 1 10 "[)") 1 = true
  /\ Range.__contains__ (Examples.int_range 1 10 "[)") 10 = false
  /\ Range.__contains__ (Examples.int_range 1 10 "[)") 0 = false
  /\ Range.__contains__ (Examples.int_range 1 10 "[]") 10 = true.
Proof.
  assert (Hcode : forall (T : Type) (E : PyElem T) (r : Range.t T) (x : T),
            Range.__contains__ r x = Documented.member_unless_excluded r x).
  { intros T E [lo hi b] x.
    unfold Range.__contains__, Documented.member_unless_excluded,
      Documented.kept_by_lower, Documented.kept_by_upper, Range.isempty,
      Range.lower_inc, Range.upper_inc, Range.lower, Range.upper.
    cbn [Range._lower Range._upper Range._bounds].
    destruct (str_bool b); cbn [negb orb]; [|reflexivity].
    destruct lo as [lo|], hi as [up|]; cbn [Range.is_None];
      repeat match goal with
        | |- context [str_at_is ?s ?i ?c] => destruct (str_at_is s i c)
        end;
      repeat match goal with
        | |- context [py_lt ?a ?c] => destruct (py_lt a c)
        | |- context [py_le ?a ?c] => destruct (py_le a c)
        | |- context [py_gt ?a ?c] => destruct (py_gt a c)
        | |- context [py_ge ?a ?c] => destruct (py_ge a c)
        end; reflexivity. }
  split; [|split; [|repeat split; reflexivity]].
  - intros T E r x. split; [|apply Hcode].
    unfold Range.__contains__, Range.isempty. intros ->. reflexivity.
  - intros T E Hord [lo hi b] x. rewrite Hcode.
    unfold Documented.member_unless_excluded, Documented.member,
      Documented.kept_by_lower, Documented.kept_by_upper,
      Documented.passes_lower, Documented.passes_upper.
    assert (Hle : forall a c : T, py_le a c = negb (py_gt a c))
      by (intros a c; rewrite py_gt_not_le, negb_involutive; reflexivity).
    assert (Hlt : forall a c : T, py_lt a c = negb (py_ge a c))
      by (intros a c; rewrite py_ge_not_lt, negb_involutive; reflexivity).
    destruct (Range.isempty (Range.mk lo hi b)); [reflexivity|].
    f_equal.
    + destruct (Range.lower (Range.mk lo hi b)); [|reflexivity].
      rewrite py_ge_not_lt, py_gt_not_le. reflexivity.
    + destruct (Range.upper (Range.mk lo hi b)); [|reflexivity].
      rewrite Hle, Hlt. reflexivity.
Qed.

Lemma contains_unless_excluded_witness :
  Range.__contains__ (Examples.int_range 1 10 "(]") 10
  = Documented.member (Examples.int_range 1 10 "(]") 10.
Proof.
  exact (proj1 (proj2 contains_unless_excluded) Z int_elem
           Examples.int_ordered (Examples.int_range 1 10 "(]") 10).
Defined.

(** C6, as first stated: [nan] is in [Range(0.0, 1.0, "[]")], no
    comparison with it being true, though it passes neither the check
    [x >= lower] nor the check [x <= upper]. *)
Lemma nan_is_member_but_passes_no_check :
  Range.__contains__
    (Range.mk (Some (Examples.fl 0)) (Some (Examples.fl 1)) "[]") Examples.nan
  <> Documented.member
       (Range.mk (Some (Examples.fl 0)) (Some (Examples.fl 1)) "[]")
       Examples.nan.
Proof. vm_compute. discriminate. Qed.

(** C2. [__lt__] compares [lower], then [upper], then [bounds]; at the
    first field on which the two ranges differ the answer is [True] if
    the left value is [None], [False] if the right one is, and the [<]
    of the two values otherwise.  So
    [Range(None, 5, "[)") < Range(1, 5, "[)")] holds and
    [Range(1, 5, "[)") < Range(None, 5, "[)")] does not. *)
Theorem lt_first_differing_field :
  (forall (T : Type) (E : PyElem T) (a b : Range.t T),
     Range.__lt__ a b = Documented.less a b)
  /\ Range.__lt__ (Range.mk None (Some 5) "[)") (Examples.int_range 1 5 "[)")
     = true
  /\ Range.__lt__ (Examples.int_range 1 5 "[)") (Range.mk None (Some 5) "[)")
     = false.
Proof.
  split; [|split; reflexivity].
  intros T E [lo hi b] [lo' hi' b'].
  unfold Range.__lt__, Documented.less, Range.__slots__, Range.lower,
    Range.upper.
  cbn [Range.lt_loop Range.getattr Range._lower Range._upper Range._bounds].
  destruct lo as [x|], lo' as [x'|]; cbn;
    try destruct (py_eq x x'); cbn; try reflexivity;
    destruct hi as [y|], hi' as [y'|]; cbn;
    try destruct (py_eq y y'); cbn; try reflexivity;
    destruct (String.eqb b b'); reflexivity.
Qed.

(** C10. Equal ranges have equal hashes, for elements that honour the
    hash contract; and two ranges built with [empty=True] are equal and
    hash alike whatever the other arguments were. *)
Theorem hash_respects_eq :
  (forall (T : Type) (E : PyElem T), PyHashable T ->
     forall (hash_None : Z) (hash_str : string -> Z)
            (hash_tuple : list Z -> Z) (r1 r2 : Range.t T),
       Range.__eq__ r1 r2 = true ->
       Range.__hash__ hash_None hash_str hash_tuple r1
       = Range.__hash__ hash_None hash_str hash_tuple r2)
  /\ (forall (T : Type) (E : PyElem T)
            (hash_None : Z) (hash_str : string -> Z)
            (hash_tuple : list Z -> Z)
            (lo hi lo' hi' : option T) (b b' : string) (r1 r2 : Range.t T),
       Range.__init__ lo hi b true = Ok r1 ->
       Range.__init__ lo' hi' b' true = Ok r2 ->
       Range.__eq__ r1 r2 = true
       /\ Range.__hash__ hash_None hash_str hash_tuple r1
          = Range.__hash__ hash_None hash_str hash_tuple r2).
Proof.
  split.
  - intros T E Hh hn hs ht [lo hi b] [lo' hi' b'].
    unfold Range.__eq__, Range.__hash__.
    cbn [Range._lower Range._upper Range._bounds].
    intros Heq. apply andb_prop in Heq as [Heq Hb].
    apply andb_prop in Heq as [Hlo Hhi].
    apply String.eqb_eq in Hb. subst b'.
    rewrite (opt_eq_hash hn lo lo' Hlo), (opt_eq_hash hn hi hi' Hhi).
    reflexivity.
  - intros T E hn hs ht lo hi lo' hi' b b' r1 r2.
    cbn. intros [= <-] [= <-]. split; reflexivity.
Qed.

Lemma hash_respects_eq_witness :
  Range.__hash__ 0 (fun _ => 7) (fun l => foldr Z.add 0 l)
    (Examples.int_range 1 5 "[)")
  = Range.__hash__ 0 (fun _ => 7) (fun l => foldr Z.add 0 l)
      (Examples.int_range 1 5 "[)")
  /\ Range.__eq__ (Range.mk (None : option Z) None "")
       (Range.mk None None "") = true.
Proof.
  split.
  - apply (proj1 hash_respects_eq Z int_elem Examples.int_hashable).
    reflexivity.
  - apply (proj2 hash_respects_eq Z int_elem 0 (fun _ => 7)
             (fun l => foldr Z.add 0 l)
             (Some 3) None (Some 1) (Some 2) "x" "[]"); reflexivity.
Defined.

(** ** Properties of RangeInfo *)

(** C5. The outcome of [fetch] by the number of rows the catalog query
    answers: none, [None]; more than one, [ProgrammingError]; exactly
    one, a [RangeInfo] holding the four columns of the row. *)
Theorem fetch_by_row_count (Composable : Type)
    (as_string : Composable -> string)
    (execute : string -> list RangeInfo.row)
    (name : string + Composable) (recs : list RangeInfo.row) :
  execute (match name with inl s => s | inr ident => as_string ident end)
    = recs ->
  (recs = [] -> RangeInfo.fetch as_string execute name = Ok None)
  /\ ((1 < length recs)%nat ->
        RangeInfo.fetch as_string execute name = Raise ProgrammingError)
  /\ (forall (n : string) (o a s : Z), recs = [(n, o, a, s)] ->
        exists info : RangeInfo.t,
          RangeInfo.fetch as_string execute name = Ok (Some info)
          /\ RangeInfo.name info = n /\ RangeInfo.oid info = o
          /\ RangeInfo.array_oid info = a
          /\ RangeInfo.range_subtype info = s).
Proof.
  intros Hexec. unfold RangeInfo.fetch. rewrite Hexec. clear Hexec.
  split; [|split].
  - intros ->. reflexivity.
  - destruct recs as [|r0 [|r1 more]]; cbn [length]; try lia.
    intros _. unfold RangeInfo._from_records.
    rewrite bool_decide_eq_true_2; [reflexivity|]. cbn [length]. lia.
  - intros n o a s ->. eexists. cbn. repeat split; reflexivity.
Qed.

Lemma fetch_by_row_count_witness :
  RangeInfo.fetch (fun s : string => s)
    (fun _ => [("intrange"%string, 70000, 70001, 23)]) (inl "intrange"%string)
  = Ok (Some (RangeInfo.mk "intrange" 70000 70001 23))
  /\ RangeInfo.fetch (fun s : string => s)
       (fun _ => [("a"%string, 1, 2, 3); ("a"%string, 4, 5, 6)])
       (inr "a"%string)
     = Raise ProgrammingError
  /\ RangeInfo.fetch (fun s : string => s) (fun _ => []) (inl "nope"%string)
     = Ok None.
Proof.
  split; [|split].
  - destruct (proj2 (proj2 (fetch_by_row_count string (fun s => s)
        (fun _ => [("intrange"%string, 70000, 70001, 23)])
        (inl "intrange"%string) _ eq_refl)) _ _ _ _ eq_refl)
      as (info & Hf & Hn & Ho & Ha & Hs).
    rewrite Hf. destruct info; cbn in *. subst. reflexivity.
  - apply (proj1 (proj2 (fetch_by_row_count string (fun s => s)
        (fun _ => [("a"%string, 1, 2, 3); ("a"%string, 4, 5, 6)])
        (inr "a"%string) _ eq_refl))).
    cbn. lia.
  - apply (proj1 (fetch_by_row_count string (fun s => s) (fun _ => [])
        (inl "nope"%string) _ eq_refl)).
    reflexivity.
Defined.

(** ** Properties of RangeDumper *)

Section DumperFacts.
Context {T : Type} `{PyElem T}.
Variable get_dumper : T -> Dumper T.
Variable INVALID_OID : Z.
Variable default_oid : Z.

Lemma get_item_representative (obj : Range.t T) (item : T) :
  Documented.representative obj item ->
  RangeDumper._get_item obj = Some item.
Proof.
  unfold Documented.representative, RangeDumper._get_item.
  intros [Hlo|[Hlo Hup]]; rewrite Hlo; [reflexivity|exact Hup].
Qed.

Lemma upgrade_oid_of_item (builtins : gmap Z RangeInfo.t)
    (self : RangeDumper.t T) (obj : Range.t T) (item : T) :
  RangeDumper._get_item obj = Some item ->
  RangeDumper.oid
    (RangeDumper.upgrade get_dumper INVALID_OID builtins default_oid self obj)
  = Documented.upgraded_oid INVALID_OID builtins get_dumper item.
Proof.
  intros Hitem. unfold RangeDumper.upgrade, Documented.upgraded_oid.
  rewrite Hitem. unfold RangeDumper._get_range_oid.
  destruct (isinstance item ty_int); cbn; [reflexivity|].
  destruct (get_range builtins (d_oid (get_dumper item))); reflexivity.
Qed.

End DumperFacts.

(** C4. For a non-empty range with a bound, the dumper that [upgrade]
    builds has the unknown oid when the representative bound is an
    [int], whatever the catalog holds; otherwise it has the range oid
    that the builtin catalog gives for the element dumper's oid, and the
    unknown oid when the catalog has none. *)
Theorem upgrade_oid_rule (T : Type) (E : PyElem T)
    (get_dumper : T -> Dumper T) (INVALID_OID default_oid : Z)
    (builtins : gmap Z RangeInfo.t)
    (self : RangeDumper.t T) (obj : Range.t T) (item : T) :
  Range.isempty obj = false ->
  Documented.representative obj item ->
  RangeDumper.oid
    (RangeDumper.upgrade get_dumper INVALID_OID builtins default_oid self obj)
  = Documented.upgraded_oid INVALID_OID builtins get_dumper item
  /\ (isinstance item ty_int = true ->
        RangeDumper.oid
          (RangeDumper.upgrade get_dumper INVALID_OID builtins default_oid
             self obj) = INVALID_OID)
  /\ (isinstance item ty_int = false ->
        RangeDumper.oid
          (RangeDumper.upgrade get_dumper INVALID_OID builtins default_oid
             self obj)
        = match builtins !! d_oid (get_dumper item) with
          | Some info => RangeInfo.oid info
          | None => INVALID_OID
          end).
Proof.
  intros _ Hrep. apply get_item_representative in Hrep.
  rewrite (upgrade_oid_of_item get_dumper INVALID_OID default_oid builtins
             self obj item Hrep).
  unfold Documented.upgraded_oid, get_range.
  split; [reflexivity|].
  split; intros ->; reflexivity.
Qed.

Lemma upgrade_oid_rule_witness :
  RangeDumper.oid
    (RangeDumper.upgrade (fun _ => Examples.int_dumper) 0
       Examples.pg_builtins 0 (RangeDumper.mk ty_Range None 0)
       (Examples.int_range 1 5 "[)")) = 0.
Proof.
  apply (proj1 (proj2 (upgrade_oid_rule Z int_elem
    (fun _ => Examples.int_dumper) 0 0 Examples.pg_builtins
    (RangeDumper.mk ty_Range None 0) (Examples.int_range 1 5 "[)") 1
    eq_refl (or_introl eq_refl)))).
  reflexivity.
Defined.

(** C9. A [bool] is an [int] for [isinstance]: when the representative
    bound is a boolean, [upgrade] gives the unknown oid, and the builtin
    catalog has no part in the dumper it builds. *)
Theorem upgrade_bool_takes_int_branch (T : Type) (E : PyElem T)
    (get_dumper : T -> Dumper T) (INVALID_OID default_oid : Z)
    (builtins : gmap Z RangeInfo.t)
    (self : RangeDumper.t T) (obj : Range.t T) (item : T) :
  Documented.representative obj item ->
  py_type item = ty_bool ->
  isinstance item ty_int = true
  /\ RangeDumper.oid
       (RangeDumper.upgrade get_dumper INVALID_OID builtins default_oid
          self obj) = INVALID_OID
  /\ forall builtins' : gmap Z RangeInfo.t,
       RangeDumper.upgrade get_dumper INVALID_OID builtins' default_oid
         self obj
       = RangeDumper.upgrade get_dumper INVALID_OID builtins default_oid
           self obj.
Proof.
  intros Hrep Hty. apply get_item_representative in Hrep.
  assert (Hint : isinstance item ty_int = true)
    by (unfold isinstance; rewrite Hty; reflexivity).
  split; [exact Hint|]. split.
  - rewrite (upgrade_oid_of_item get_dumper INVALID_OID default_oid builtins
               self obj item Hrep).
    unfold Documented.upgraded_oid. rewrite Hint. reflexivity.
  - intros builtins'. unfold RangeDumper.upgrade.
    rewrite Hrep, Hint. reflexivity.
Qed.

Lemma upgrade_bool_takes_int_branch_witness :
  RangeDumper.oid
    (RangeDumper.upgrade (fun _ => Examples.bool_dumper) 0
       Examples.pg_builtins 0 (RangeDumper.mk ty_Range None 0)
       (Range.mk (Some true) (Some true) "[]")) = 0.
Proof.
  exact (proj1 (proj2 (upgrade_bool_takes_int_branch bool bool_elem
    (fun _ => Examples.bool_dumper) 0 0 Examples.pg_builtins
    (RangeDumper.mk ty_Range None 0)
    (Range.mk (Some true) (Some true) "[]") true
    (or_introl eq_refl) eq_refl))).
Defined.

(** ** Properties of the codec and of RangeLoader *)

Section CodecFacts.

Lemma undouble_esc (t : bytes) :
  Composite._re_undouble_sub (Composite._re_esc_sub t) = t.
Proof.
  induction t as [|c t IH]; [reflexivity|].
  cbn [Composite._re_esc_sub].
  destruct (Composite.is_esc c) eqn:Hc.
  - cbn [Composite._re_undouble_sub]. rewrite Hc.
    rewrite bool_decide_eq_true_2 by reflexivity. cbn [andb].
    rewrite IH. reflexivity.
  - cbn [Composite._re_undouble_sub]. rewrite Hc. cbn [andb].
    destruct (Composite._re_esc_sub t) as [|c' t'] eqn:Ht.
    + cbn in IH. subst t. reflexivity.
    + rewrite IH. reflexivity.
Qed.

Lemma scan_quoted_esc (t rest : bytes) :
  head rest <> Some Composite.dquote ->
  Composite.scan_quoted (Composite._re_esc_sub t ++ Composite.dquote :: rest)
  = Some (Composite._re_esc_sub t, rest).
Proof.
  intros Hrest. induction t as [|c t IH].
  - cbn [Composite._re_esc_sub app Composite.scan_quoted].
    rewrite bool_decide_eq_true_2 by reflexivity.
    destruct rest as [|c' rest']; [reflexivity|].
    rewrite (bool_decide_eq_false_2 (c' = Composite.dquote));
      [reflexivity|].
    intros ->. apply Hrest. reflexivity.
  - cbn [Composite._re_esc_sub].
    destruct (Composite.is_esc c) eqn:Hc.
    + destruct (decide (c = Composite.dquote)) as [->|Hq].
      * cbn [app Composite.scan_quoted].
        rewrite !bool_decide_eq_true_2 by reflexivity.
        rewrite IH. reflexivity.
      * cbn [app Composite.scan_quoted].
        rewrite !bool_decide_eq_false_2 by exact Hq.
        rewrite IH. reflexivity.
    + assert (Hq : c <> Composite.dquote).
      { intros ->. vm_compute in Hc. discriminate. }
      cbn [app Composite.scan_quoted].
      rewrite bool_decide_eq_false_2 by exact Hq.
      rewrite IH. reflexivity.
Qed.

Lemma span_plain_app (t rest : bytes) :
  Forall (fun c => Composite.is_plain c = true) t ->
  match rest with
  | [] => True
  | c :: _ => Composite.is_plain c = false
  end ->
  Composite.span_plain (t ++ rest) = (t, rest).
Proof.
  intros Ht Hrest. induction Ht as [|c t Hc Ht IH]; cbn.
  - destruct rest as [|c rest']; [reflexivity|]. cbn. rewrite Hrest.
    reflexivity.
  - rewrite Hc, IH. reflexivity.
Qed.

Lemma needs_quotes_of_not_plain (c : byte) :
  Composite.is_plain c = false -> RangeDumper.needs_quotes_byte c = true.
Proof. destruct c; intros Hc; try reflexivity; vm_compute in Hc; discriminate. Qed.

Lemma plain_of_no_quotes (t : bytes) :
  RangeDumper._re_needs_quotes t = false ->
  Forall (fun c => Composite.is_plain c = true) t.
Proof.
  unfold RangeDumper._re_needs_quotes.
  induction t as [|c t IH]; cbn; [constructor|].
  intros Hq. apply orb_false_elim in Hq as [Hc Ht].
  constructor; [|auto].
  destruct (Composite.is_plain c) eqn:Hp; [reflexivity|].
  rewrite (needs_quotes_of_not_plain c Hp) in Hc. discriminate.
Qed.

Lemma finditer_skip (pre rest : bytes) :
  Composite.finditer_from (pre ++ rest) (length pre)
  = Composite.finditer_from rest 0.
Proof. induction pre as [|c pre IH]; [reflexivity|exact IH]. Qed.

Lemma finditer_match (g rest : bytes) (m : Composite.rmatch) :
  Composite.match_at (g ++ rest) = Some m ->
  Composite.group0 m = g -> g <> [] ->
  Composite.finditer (g ++ rest) = m :: Composite.finditer rest.
Proof.
  intros Hm Hg Hne. destruct g as [|c g]; [contradiction|].
  unfold Composite.finditer.
  change ((c :: g) ++ rest) with (c :: g ++ rest) in *.
  cbn [Composite.finditer_from]. rewrite Hm, Hg.
  replace (length (c :: g) - 1)%nat with (length g) by (cbn [length]; lia).
  rewrite finditer_skip. reflexivity.
Qed.

(** The text of a field on the wire: nothing for an absent element. *)
Local Abbreviation Q := (Composite.quoted RangeDumper._re_needs_quotes).

Lemma quoted_nonempty (t : bytes) : Q t <> [].
Proof.
  unfold Composite.quoted. destruct t as [|c t]; [discriminate|].
  destruct (RangeDumper._re_needs_quotes (c :: t)); discriminate.
Qed.

Lemma quoted_no_final_comma (t : bytes) :
  Composite.ends_with_comma (Q t) = false.
Proof.
  unfold Composite.ends_with_comma, Composite.quoted.
  destruct t as [|c t]; [reflexivity|].
  destruct (RangeDumper._re_needs_quotes (c :: t)) eqn:Hq.
  - change (Composite.dquote :: Composite._re_esc_sub (c :: t)
            ++ [Composite.dquote])
      with ((Composite.dquote :: Composite._re_esc_sub (c :: t))
            ++ [Composite.dquote]).
    rewrite last_snoc. reflexivity.
  - apply plain_of_no_quotes in Hq.
    destruct (last (c :: t)) as [l|] eqn:Hl; [|reflexivity].
    apply last_Some_elem_of in Hl. rewrite Forall_forall in Hq.
    apply bool_decide_eq_false. intros ->.
    specialize (Hq _ Hl). vm_compute in Hq. discriminate.
Qed.

(** The match at a field that is followed by the separator or by
    nothing. *)
Lemma match_at_field (t rest : bytes) :
  rest = [] \/ (exists rest', rest = Composite.comma :: rest') ->
  exists m : Composite.rmatch,
    Composite.match_at (Q t ++ rest) = Some m
    /\ Composite.group0 m = Q t ++ Composite.opt_comma rest
    /\ Composite.token_of m = Some t.
Proof.
  intros Hrest.
  assert (Hhead : head rest <> Some Composite.dquote)
    by (destruct Hrest as [->|[rest' ->]]; discriminate).
  assert (Hstop : match rest with
                  | [] => True
                  | c :: _ => Composite.is_plain c = false
                  end)
    by (destruct Hrest as [->|[rest' ->]]; [exact I|reflexivity]).
  unfold Composite.quoted. destruct t as [|c t].
  - eexists. cbn [app Composite.match_at].
    rewrite bool_decide_eq_false_2 by discriminate.
    rewrite bool_decide_eq_true_2 by reflexivity.
    pose proof (scan_quoted_esc [] rest Hhead) as Hscan.
    cbn [Composite._re_esc_sub app] in Hscan. rewrite Hscan.
    repeat split; reflexivity.
  - destruct (RangeDumper._re_needs_quotes (c :: t)) eqn:Hq.
    + eexists.
      replace ((Composite.dquote :: Composite._re_esc_sub (c :: t)
                ++ [Composite.dquote]) ++ rest)
        with (Composite.dquote :: Composite._re_esc_sub (c :: t)
              ++ Composite.dquote :: rest)
        by (rewrite <- app_comm_cons, <- app_assoc; reflexivity).
      cbn [Composite.match_at].
      rewrite bool_decide_eq_false_2 by discriminate.
      rewrite bool_decide_eq_true_2 by reflexivity.
      pose proof (scan_quoted_esc (c :: t) rest Hhead) as Hscan.
      rewrite Hscan.
      split; [reflexivity|]. split.
      * cbn [Composite.group0].
        rewrite <- app_comm_cons, <- app_assoc. reflexivity.
      * unfold Composite.token_of. cbn [Composite.group1 Composite.group2].
        rewrite undouble_esc. reflexivity.
    + apply plain_of_no_quotes in Hq.
      pose proof (span_plain_app (c :: t) rest Hq Hstop) as Hspan.
      apply Forall_cons in Hq as [Hc _].
      assert (Hnc : c <> Composite.comma)
        by (intros ->; vm_compute in Hc; discriminate).
      assert (Hnq : c <> Composite.dquote)
        by (intros ->; vm_compute in Hc; discriminate).
      eexists. rewrite <- app_comm_cons in *. cbn [Composite.match_at].
      rewrite bool_decide_eq_false_2 by exact Hnc.
      rewrite bool_decide_eq_false_2 by exact Hnq.
      rewrite Hc, Hspan. repeat split; reflexivity.
Qed.

Lemma ends_with_comma_snoc (t : bytes) :
  Composite.ends_with_comma (t ++ [Composite.comma]) = true.
Proof.
  unfold Composite.ends_with_comma. rewrite last_snoc. reflexivity.
Qed.

(** The tokens of a payload of two fields, each present or absent. *)
Lemma parse_record_fields (l u : option bytes) :
  Composite._parse_record
    (from_option Q [] l ++ Composite.comma :: from_option Q [] u)
  = [Ok l; Ok u].
Proof.
  assert (Hfirst : exists m1 : Composite.rmatch,
    Composite.finditer
      (from_option Q [] l ++ Composite.comma :: from_option Q [] u)
    = m1 :: Composite.finditer (from_option Q [] u)
    /\ Composite.ends_with_comma (Composite.group0 m1) = true
    /\ Composite.token_of m1 = l).
  { destruct l as [t|]; cbn [from_option].
    - destruct (match_at_field t (Composite.comma :: from_option Q [] u))
        as (m1 & Hm & Hg & Htok); [right; eauto|].
      exists m1. split; [|split; [|exact Htok]].
      + cbn [Composite.opt_comma] in Hg.
        rewrite bool_decide_eq_true_2 in Hg by reflexivity.
        change (Q t ++ Composite.comma :: from_option Q [] u)
          with (Q t ++ [Composite.comma] ++ from_option Q [] u) in *.
        rewrite app_assoc in *.
        apply finditer_match; [exact Hm|exact Hg|].
        intros Hnil. apply app_eq_nil in Hnil as [_ ?]. discriminate.
      + rewrite Hg. cbn [Composite.opt_comma].
        rewrite bool_decide_eq_true_2 by reflexivity.
        apply ends_with_comma_snoc.
    - exists (Composite.mk_match [Composite.comma] (Some [Composite.comma])
                None None).
      split; [|split; reflexivity].
      apply (finditer_match [Composite.comma] (from_option Q [] u));
        [reflexivity|reflexivity|discriminate]. }
  destruct Hfirst as (m1 & Hfind & Hcomma & Htok).
  unfold Composite._parse_record. rewrite Hfind.
  destruct u as [t|]; cbn [from_option].
  - destruct (match_at_field t []) as (m2 & Hm & Hg & Htok2); [left; reflexivity|].
    cbn [Composite.opt_comma] in Hg. rewrite app_nil_r in Hg.
    rewrite <- (app_nil_r (Q t)).
    rewrite (finditer_match (Q t) [] m2 Hm Hg (quoted_nonempty t)).
    cbn. rewrite Hg, quoted_no_final_comma, Htok, Htok2. reflexivity.
  - cbn. rewrite Hcomma, Htok. reflexivity.
Qed.

Lemma parse_record_raises (data : bytes) (e : exn) :
  Raise e ∈ Composite._parse_record data -> e = UnboundLocalError.
Proof.
  unfold Composite._parse_record. rewrite elem_of_app.
  intros [Hin|Hin].
  - apply list_elem_of_fmap in Hin as (m & Hm & _). discriminate.
  - destruct (last (Composite.finditer data)) as [m|].
    + destruct (Composite.ends_with_comma (Composite.group0 m)).
      * apply list_elem_of_singleton in Hin. discriminate.
      * apply elem_of_nil in Hin. contradiction.
    + apply list_elem_of_singleton in Hin. congruence.
Qed.

Lemma bytes_last_snoc (l : bytes) (c : byte) :
  bytes_last (l ++ [c]) = Ok (byte_int c).
Proof. unfold bytes_last. rewrite last_snoc. reflexivity. Qed.

Lemma bytes_inner_wrap (o c : byte) (body : bytes) :
  bytes_inner (o :: body ++ [c]) = body.
Proof. unfold bytes_inner. cbn [tail]. apply List.removelast_last. Qed.

Lemma int2parens_inv (c : Z) (s : string) :
  RangeLoader._int2parens !! c = Some s ->
  (c = ord "[" /\ s = "[") \/ (c = ord "]" /\ s = "]")
  \/ (c = ord "(" /\ s = "(") \/ (c = ord ")" /\ s = ")").
Proof.
  change RangeLoader._int2parens
    with (<[ord "[" := "["]> (<[ord "]" := "]"]> (<[ord "(" := "("]>
            (<[ord ")" := ")"]> (∅ : gmap Z string))))).
  rewrite !lookup_insert_Some, lookup_empty. intuition congruence.
Qed.

Lemma bounds_of_brackets (c c' : Z) (lo hi : string) :
  RangeLoader._int2parens !! c = Some lo ->
  RangeLoader._int2parens !! c' = Some hi ->
  (lo ++ hi)%string ∈ Range.valid_bounds ->
  (c = ord "[" \/ c = ord "(") /\ (c' = ord "]" \/ c' = ord ")").
Proof.
  intros Hlo Hhi Hin.
  apply int2parens_inv in Hlo, Hhi.
  unfold Range.valid_bounds in Hin.
  rewrite !elem_of_cons, elem_of_nil in Hin.
  destruct Hlo as [[-> ->]|[[-> ->]|[[-> ->]|[-> ->]]]],
           Hhi as [[-> ->]|[[-> ->]|[[-> ->]|[-> ->]]]];
    cbn in Hin; intuition (try discriminate; auto).
Qed.

Lemma dict_getitem_Some {V} (d : gmap Z V) (k : Z) (v : V) :
  d !! k = Some v -> RangeLoader.dict_getitem d k = Ok v.
Proof. unfold RangeLoader.dict_getitem. intros ->. reflexivity. Qed.

Lemma dict_getitem_None {V} (d : gmap Z V) (k : Z) :
  d !! k = None -> RangeLoader.dict_getitem d k = Raise KeyError.
Proof. unfold RangeLoader.dict_getitem. intros ->. reflexivity. Qed.

Lemma unpack2_cases {A} (items : list (result A)) :
  (exists x y, items = [Ok x; Ok y] /\ RangeLoader.unpack2 items = Ok (x, y))
  \/ (exists e, RangeLoader.unpack2 items = Raise e
                /\ (e = ValueError \/ Raise e ∈ items)).
Proof.
  destruct items as [|[x|e] [|[y|e'] [|[z|e''] rest]]]; cbn;
    try (right; eexists; split; [reflexivity|]; (left; reflexivity)
         || (right; set_solver)).
  left. eauto.
Qed.

End CodecFacts.

Section LoaderFacts.
Context {T : Type} `{PyElem T}.
Variable get_dumper : T -> Dumper T.
Variable get_loader : Z -> bytes -> result T.
Variable subtype_oid : Z.

Local Abbreviation matched :=
  (RoundTrip.matched get_dumper get_loader subtype_oid).

(** The text of a range that is not empty. *)
Lemma dump_nonempty_tokens (self : RangeDumper.t T) (r : Range.t T) :
  Range.isempty r = false ->
  RangeDumper.dump get_dumper self r = Documented.wire_tokens get_dumper r.
Proof.
  unfold RangeDumper.dump, Range.isempty, Range.__bool__. intros ->.
  unfold Composite._dump_sequence, Documented.wire_tokens,
    Documented.bound_token.
  destruct (Range.lower r), (Range.upper r);
    cbn [Composite.parts_of removelast app List.concat];
    rewrite ?app_nil_r, <- ?app_assoc; reflexivity.
Qed.

Lemma bound_token_piece (o : option T) :
  Documented.bound_token get_dumper o
  = from_option (Composite.quoted RangeDumper._re_needs_quotes) []
      ((fun x => d_dump (get_dumper x) x) <$> o).
Proof. destruct o; reflexivity. Qed.

(** Loading a bracketed payload of two fields as the codec writes
    them. *)
Lemma load_wire_tokens (o c : byte) (lo hi : string) (l u : option T) :
  o <> "e"%byte ->
  RangeLoader._int2parens !! byte_int o = Some lo ->
  RangeLoader._int2parens !! byte_int c = Some hi ->
  matched l -> matched u ->
  RangeLoader.load get_loader subtype_oid
    (o :: (Documented.bound_token get_dumper l
           ++ Composite.comma :: Documented.bound_token get_dumper u) ++ [c])
  = Range.__init__ l u (lo ++ hi)%string false.
Proof.
  intros Ho Hlo Hhi Hl Hu. unfold RangeLoader.load.
  rewrite bool_decide_eq_false_2 by (intros [= -> _]; contradiction).
  cbn [bytes_first mbind result_bind].
  rewrite (dict_getitem_Some _ _ _ Hlo). cbn [mbind result_bind].
  rewrite bytes_inner_wrap.
  change (o :: ?body ++ [c]) with ((o :: body) ++ [c]).
  rewrite bytes_last_snoc. cbn [mbind result_bind].
  rewrite (dict_getitem_Some _ _ _ Hhi). cbn [mbind result_bind].
  rewrite !bound_token_piece, parse_record_fields.
  cbn [fmap list_fmap mbind result_bind].
  destruct l as [x|], u as [y|]; cbn [fmap option_fmap option_map];
    try rewrite (Hl x eq_refl); try rewrite (Hu y eq_refl); reflexivity.
Qed.

(** The text of a range that is not empty is read back as the range
    with its bounds and the flag the two brackets spell. *)
Lemma load_dump_nonempty (self : RangeDumper.t T) (r : Range.t T) :
  Range.isempty r = false ->
  matched (Range.lower r) -> matched (Range.upper r) ->
  RangeLoader.load get_loader subtype_oid (RangeDumper.dump get_dumper self r)
  = Ok (Range.mk (Range.lower r) (Range.upper r)
          ((if Range.lower_inc r then "[" else "(")
           ++ (if Range.upper_inc r then "]" else ")"))%string).
Proof.
  intros Hempty Hl Hu. rewrite (dump_nonempty_tokens self r Hempty).
  unfold Documented.wire_tokens.
  destruct (Range.lower_inc r), (Range.upper_inc r);
    match goal with
    | |- RangeLoader.load _ _ (B ?o ++ _ ++ _ ++ _ ++ B ?c) = _ =>
        etrans;
        [ etrans;
          [ | apply (load_wire_tokens (hd "e"%byte (B o)) (hd "e"%byte (B c))
                      o c (Range.lower r) (Range.upper r));
              first [ discriminate | vm_compute; reflexivity | assumption ] ];
          f_equal; cbn [B hd app]; rewrite <- ?app_assoc; reflexivity
        | reflexivity ]
    end.
Qed.

(** What goes wrong on a text that is not well formed. *)
Lemma load_malformed (data : bytes) :
  data <> B "empty" ->
  Documented.well_formed data = false ->
  exists e : exn,
    RangeLoader.load get_loader subtype_oid data = Raise e
    /\ (e = IndexError \/ e = KeyError \/ e = UnboundLocalError
        \/ e = ValueError
        \/ exists token : bytes, get_loader subtype_oid token = Raise e).
Proof.
  intros Hne Hwf. unfold RangeLoader.load, Documented.well_formed in *.
  rewrite bool_decide_eq_false_2 by exact Hne.
  destruct (bytes_first data) as [c|e] eqn:Hfirst.
  2:{ destruct data; [|discriminate]. injection Hfirst as <-.
      eexists. split; [reflexivity|]. auto. }
  cbn [mbind result_bind].
  destruct (RangeLoader._int2parens !! c) as [lo|] eqn:Hlo.
  2:{ rewrite (dict_getitem_None _ _ Hlo).
      eexists. split; [reflexivity|]. auto. }
  rewrite (dict_getitem_Some _ _ _ Hlo). cbn [mbind result_bind].
  destruct (bytes_last data) as [c'|e] eqn:Hlast.
  2:{ unfold bytes_last in Hlast. destruct (last data); [discriminate|].
      injection Hlast as <-. eexists. split; [reflexivity|]. auto. }
  cbn [mbind result_bind].
  destruct (RangeLoader._int2parens !! c') as [hi|] eqn:Hhi.
  2:{ rewrite (dict_getitem_None _ _ Hhi).
      eexists. split; [reflexivity|]. auto. }
  rewrite (dict_getitem_Some _ _ _ Hhi). cbn [mbind result_bind].
  unfold Documented.two_fields in Hwf.
  set (stream := Composite._parse_record (bytes_inner data)) in *.
  assert (Hstream : forall e, Raise e ∈ stream -> e = UnboundLocalError)
    by (intros e; apply parse_record_raises).
  clearbody stream.
  set (items := _ <$> stream).
  destruct (unpack2_cases items) as [(x & y & Hitems & ->)|(e & -> & He)].
  - cbn [mbind result_bind].
    assert (Htwo : match stream with [Ok _; Ok _] => true | _ => false end
                   = true).
    { unfold items in Hitems.
      destruct stream as [|[t1|e1] [|[t2|e2] [|i3 rest]]];
        cbn in Hitems; try discriminate; reflexivity. }
    rewrite Htwo, andb_true_r in Hwf.
    rewrite init_invalid.
    + eexists. split; [reflexivity|]. auto 6.
    + intros Hin.
      destruct (bounds_of_brackets c c' lo hi Hlo Hhi Hin) as [Hc Hc'].
      rewrite (bool_decide_eq_true_2 _ Hc), (bool_decide_eq_true_2 _ Hc')
        in Hwf.
      discriminate.
  - cbn [mbind result_bind]. eexists. split; [reflexivity|].
    destruct He as [->|Hin]; [auto 6|].
    unfold items in Hin.
    apply list_elem_of_fmap in Hin as (item & Htok & Hitem).
    destruct item as [[token|]|e']; cbn [mbind result_bind] in Htok.
    + right; right; right; right.
      destruct (get_loader subtype_oid token) eqn:Hcast;
        cbn in Htok; [discriminate|].
      injection Htok as ->. eauto.
    + discriminate.
    + injection Htok as ->.
      rewrite (Hstream _ Hitem). auto.
Qed.

(** What a text that [load] accepts looks like. *)
Lemma load_ok_inv (data : bytes) (r : Range.t T) :
  RangeLoader.load get_loader subtype_oid data = Ok r ->
  (data = B "empty" /\ r = Range.mk None None "")
  \/ (data <> B "empty"
      /\ Documented.well_formed data = true
      /\ Range._bounds r ∈ Range.valid_bounds
      /\ exists (c c' : Z) (lo hi : string),
           bytes_first data = Ok c /\ bytes_last data = Ok c'
           /\ RangeLoader._int2parens !! c = Some lo
           /\ RangeLoader._int2parens !! c' = Some hi
           /\ Range._bounds r = (lo ++ hi)%string).
Proof.
  unfold RangeLoader.load, Documented.well_formed, Documented.two_fields.
  destruct (bool_decide_reflect (data = B "empty")) as [->|Hne].
  - cbn. intros [= <-]. left. split; reflexivity.
  - intros Hload. right. split; [exact Hne|].
    destruct (bytes_first data) as [c|e]; [|discriminate].
    cbn [mbind result_bind] in Hload.
    destruct (RangeLoader._int2parens !! c) as [lo|] eqn:Hlo.
    2:{ rewrite (dict_getitem_None _ _ Hlo) in Hload. discriminate. }
    rewrite (dict_getitem_Some _ _ _ Hlo) in Hload.
    cbn [mbind result_bind] in Hload.
    destruct (bytes_last data) as [c'|e]; [|discriminate].
    cbn [mbind result_bind] in Hload.
    destruct (RangeLoader._int2parens !! c') as [hi|] eqn:Hhi.
    2:{ rewrite (dict_getitem_None _ _ Hhi) in Hload. discriminate. }
    rewrite (dict_getitem_Some _ _ _ Hhi) in Hload.
    cbn [mbind result_bind] in Hload.
    set (stream := Composite._parse_record (bytes_inner data)) in *.
    clearbody stream.
    set (items := _ <$> stream) in Hload.
    destruct (unpack2_cases items) as [(x & y & Hitems & Hun)|(e & Hun & _)];
      rewrite Hun in Hload; [|discriminate].
    cbn [mbind result_bind] in Hload.
    assert (Hvalid : (lo ++ hi)%string ∈ Range.valid_bounds
                     /\ r = Range.mk x y (lo ++ hi)%string).
    { unfold Range.__init__ in Hload. cbn [negb] in Hload.
      destruct (bool_decide_reflect ((lo ++ hi)%string ∈ Range.valid_bounds))
        as [Hb|Hb]; cbn [negb] in Hload; [|discriminate].
      injection Hload as <-. split; [exact Hb|reflexivity]. }
    destruct Hvalid as [Hvalid ->].
    assert (Htwo : match stream with [Ok _; Ok _] => true | _ => false end
                   = true).
    { unfold items in Hitems.
      destruct stream as [|[t1|e1] [|[t2|e2] [|i3 rest]]];
        cbn in Hitems; try discriminate; reflexivity. }
    destruct (bounds_of_brackets c c' lo hi Hlo Hhi Hvalid) as [Hc Hc'].
    split; [|split; [exact Hvalid|]].
    + rewrite (bool_decide_eq_true_2 _ Hc), (bool_decide_eq_true_2 _ Hc'),
        Htwo. reflexivity.
    + exists c, c', lo, hi. repeat split; assumption.
Qed.

End LoaderFacts.

(** C8. [dump] answers [b"empty"], five bytes, for an empty range.  For
    any other range it answers the texts of the two bounds around a
    comma, after ["["] if the lower bound is included and ["("] if not,
    and before ["]"] if the upper bound is included and [")"] if not.
    A bound that is [None] has no text; the text of a present bound is
    the element text as it is when that is not empty and has no byte of
    [_re_needs_quotes], and else the element text between double
    quotes with every double quote and backslash doubled. *)
Theorem dump_wire_tokens (T : Type) (E : PyElem T)
    (get_dumper : T -> Dumper T)
    (self : RangeDumper.t T) (obj : Range.t T) :
  (Range.isempty obj = true ->
     RangeDumper.dump get_dumper self obj = B "empty"
     /\ length (RangeDumper.dump get_dumper self obj) = 5%nat)
  /\ (Range.isempty obj = false ->
        RangeDumper.dump get_dumper self obj
        = Documented.wire_tokens get_dumper obj)
  /\ (Range.isempty obj = false ->
      (forall x, Range.lower obj = Some x ->
         Documented.verbatim_text (d_dump (get_dumper x) x) = true) ->
      (forall x, Range.upper obj = Some x ->
         Documented.verbatim_text (d_dump (get_dumper x) x) = true) ->
      RangeDumper.dump get_dumper self obj
      = Documented.wire_text get_dumper obj).
Proof.
  split; [|split].
  - unfold RangeDumper.dump, Range.isempty, Range.__bool__. intros ->.
    split; reflexivity.
  - apply dump_nonempty_tokens.
  - intros Hempty Hlo Hup. rewrite (dump_nonempty_tokens _ _ _ Hempty).
    unfold Documented.wire_tokens, Documented.wire_text,
      Documented.bound_token, Documented.bound_text.
    assert (Hq : forall t, Documented.verbatim_text t = true ->
                   Composite.quoted RangeDumper._re_needs_quotes t = t).
    { intros t Ht. unfold Documented.verbatim_text in Ht.
      apply andb_prop in Ht as [Hne Hnq]. apply negb_true_iff in Hne, Hnq.
      apply bool_decide_eq_false in Hne.
      unfold Composite.quoted. destruct t; [contradiction|].
      rewrite Hnq. reflexivity. }
    destruct (Range.lower obj) as [x|], (Range.upper obj) as [y|];
      rewrite ?(Hq _ (Hlo _ eq_refl)), ?(Hq _ (Hup _ eq_refl)); reflexivity.
Qed.

Lemma dump_wire_tokens_witness :
  RangeDumper.dump (fun _ => Examples.int_dumper)
    (RangeDumper.mk ty_Range None 0) (Range.mk (Some 1) None "[)")
  = B "[1,)"
  /\ length (RangeDumper.dump (fun _ => Examples.int_dumper)
               (RangeDumper.mk ty_Range None 0) (Range.mk None None ""))
     = 5%nat.
Proof.
  split.
  - rewrite (proj1 (proj2 (dump_wire_tokens Z int_elem
               (fun _ => Examples.int_dumper)
               (RangeDumper.mk ty_Range None 0)
               (Range.mk (Some 1) None "[)"))) eq_refl).
    reflexivity.
  - apply (proj1 (dump_wire_tokens Z int_elem (fun _ => Examples.int_dumper)
               (RangeDumper.mk ty_Range None 0)
               (Range.mk None None "")) eq_refl).
Defined.

(** C8, as first stated: the token of an empty range is not four bytes
    long. *)
Lemma dump_empty_is_not_four_bytes :
  ~ (RangeDumper.dump (fun _ => Examples.int_dumper)
       (RangeDumper.mk ty_Range None 0) (Range.mk None None "") = B "empty"
     /\ length (RangeDumper.dump (fun _ => Examples.int_dumper)
                  (RangeDumper.mk ty_Range None 0) (Range.mk None None ""))
        = 4%nat).
Proof. intros [_ Hlen]. vm_compute in Hlen. discriminate. Qed.

(** C1. A range with two present bounds and any of the four flags comes
    back from [load] as it went into [dump]: same lower bound, same
    upper bound, same flag, whatever the element texts are.  The
    element loader is the one that matches the element dumper. *)
Theorem dump_load_round_trip (T : Type) (E : PyElem T)
    (get_dumper : T -> Dumper T) (get_loader : Z -> bytes -> result T)
    (subtype_oid : Z) (self : RangeDumper.t T)
    (f : string) (a b : T) (r : Range.t T) :
  f = "[)"%string \/ f = "(]"%string \/ f = "()"%string \/ f = "[]"%string ->
  Range.__init__ (Some a) (Some b) f false = Ok r ->
  get_loader subtype_oid (d_dump (get_dumper a) a) = Ok a ->
  get_loader subtype_oid (d_dump (get_dumper b) b) = Ok b ->
  RangeLoader.load get_loader subtype_oid (RangeDumper.dump get_dumper self r)
  = Ok r
  /\ Range.lower r = Some a /\ Range.upper r = Some b
  /\ Range._bounds r = f.
Proof.
  intros Hf Hinit Ha Hb.
  assert (Hr : r = Range.mk (Some a) (Some b) f).
  { rewrite init_valid in Hinit; [congruence|].
    unfold Range.valid_bounds. rewrite !elem_of_cons. tauto. }
  subst r. split; [|repeat split].
  rewrite (load_dump_nonempty get_dumper get_loader subtype_oid self).
  - destruct Hf as [-> | [-> | [-> | ->]]]; reflexivity.
  - destruct Hf as [-> | [-> | [-> | ->]]]; reflexivity.
  - intros x [= <-]. exact Ha.
  - intros x [= <-]. exact Hb.
Qed.

Lemma dump_load_round_trip_witness :
  RangeLoader.load Examples.int_get_loader 23
    (RangeDumper.dump (fun _ => Examples.int_dumper)
       (RangeDumper.mk ty_Range None 0) (Examples.int_range 1 10 "[)"))
  = Ok (Examples.int_range 1 10 "[)").
Proof.
  exact (proj1 (dump_load_round_trip Z int_elem
    (fun _ => Examples.int_dumper) Examples.int_get_loader 23
    (RangeDumper.mk ty_Range None 0) "[)" 1 10
    (Examples.int_range 1 10 "[)")
    (or_introl eq_refl) eq_refl eq_refl eq_refl)).
Defined.

(** C3. A text that is neither [b"empty"] nor well formed (a first or
    last byte that is no bracket of its side, or a payload in which the
    parser does not find two fields) makes [load] raise, so no range is
    returned.  The exception is [IndexError], [KeyError],
    [UnboundLocalError] or [ValueError], or else the one the element
    loader raised on a field.  Loading [b"[1,2,3)"] with the loader of
    [int] raises [ValueError]. *)
Theorem load_rejects_malformed :
  (forall (T : Type) (E : PyElem T)
          (get_loader : Z -> bytes -> result T) (subtype_oid : Z)
          (data : bytes),
     data <> B "empty" ->
     Documented.well_formed data = false ->
     exists e : exn,
       RangeLoader.load get_loader subtype_oid data = Raise e
       /\ (e = IndexError \/ e = KeyError \/ e = UnboundLocalError
           \/ e = ValueError
           \/ exists token : bytes, get_loader subtype_oid token = Raise e))
  /\ RangeLoader.load Examples.int_get_loader 23 (B "[1,2,3)")
     = Raise ValueError.
Proof.
  split.
  - intros T E get_loader subtype_oid data. apply load_malformed.
  - vm_compute. reflexivity.
Qed.

Lemma load_rejects_malformed_witness :
  exists e : exn,
    RangeLoader.load Examples.int_get_loader 23 (B "{1,2}") = Raise e
    /\ (e = IndexError \/ e = KeyError \/ e = UnboundLocalError
        \/ e = ValueError
        \/ exists token : bytes,
             Examples.int_get_loader 23 token = Raise e).
Proof.
  apply (proj1 load_rejects_malformed Z int_elem Examples.int_get_loader 23
           (B "{1,2}")).
  - discriminate.
  - reflexivity.
Defined.

(** C3, as first stated: a first byte that is no bracket makes the
    dictionary lookup fail, and the exception is not of the class for
    malformed data. *)
Lemma load_bad_bracket_is_not_data_error :
  RangeLoader.load Examples.int_get_loader 23 (B "{1,2}") <> Raise DataError.
Proof. vm_compute. discriminate. Qed.


(** ** Further properties of the Range class *)

Section RangeMoreFacts.
Context {T : Type} `{PyElem T}.

Lemma valid_bounds_inv (b : string) :
  b ∈ Range.valid_bounds ->
  b = "[)"%string \/ b = "(]"%string \/ b = "()"%string \/ b = "[]"%string.
Proof.
  unfold Range.valid_bounds. rewrite !elem_of_cons, elem_of_nil. tauto.
Qed.

Lemma valid_bounds_nonempty (b : string) :
  b ∈ Range.valid_bounds -> str_bool b = true.
Proof.
  intros Hb. apply valid_bounds_inv in Hb.
  destruct Hb as [-> | [-> | [-> | ->]]]; reflexivity.
Qed.

Lemma init_cases (lo hi : option T) (b : string) (e : bool) (r : Range.t T) :
  Range.__init__ lo hi b e = Ok r ->
  (e = true /\ r = Range.mk None None "")
  \/ (e = false /\ b ∈ Range.valid_bounds /\ r = Range.mk lo hi b).
Proof.
  unfold Range.__init__. destruct e; cbn.
  - intros [= <-]. left. split; reflexivity.
  - destruct (bool_decide_reflect (b ∈ Range.valid_bounds)) as [Hb|Hb]; cbn.
    + intros [= <-]. right. repeat split; assumption.
    + discriminate.
Qed.

End RangeMoreFacts.

(** X1. What [__init__] establishes: the object is empty exactly when
    [empty] was passed true, and then it holds no bound and the empty
    flag; otherwise it holds the arguments as given and its flag is one
    of the four. *)
Theorem init_establishes_invariant (T : Type) (E : PyElem T)
    (lo hi : option T) (b : string) (e : bool) (r : Range.t T) :
  Range.__init__ lo hi b e = Ok r ->
  Range.isempty r = e
  /\ Range.__bool__ r = negb e
  /\ (e = true -> r = Range.mk None None "")
  /\ (e = false -> b ∈ Range.valid_bounds /\ r = Range.mk lo hi b).
Proof.
  intros Hinit.
  destruct (init_cases lo hi b e r Hinit) as [[-> ->]|(-> & Hb & ->)].
  - repeat split; try reflexivity; discriminate.
  - unfold Range.isempty, Range.__bool__. cbn [Range._bounds].
    rewrite (valid_bounds_nonempty b Hb).
    repeat split; try reflexivity; try assumption; discriminate.
Qed.

Lemma init_establishes_invariant_witness :
  Range.isempty (Examples.int_range 1 5 "(]") = false
  /\ Range.__bool__ (Examples.int_range 1 5 "(]") = negb false.
Proof.
  destruct (init_establishes_invariant Z int_elem (Some 1) (Some 5) "(]"
              false (Examples.int_range 1 5 "(]") eq_refl)
    as (Hempty & Hbool & _).
  split; assumption.
Defined.

(** X2. The four predicates on the bounds: an empty range has no
    infinite and no included bound; on any range a bound is never both
    infinite and included, and an included bound is a present one. *)
Theorem bound_predicates_exclusive (T : Type) (E : PyElem T)
    (r : Range.t T) :
  (Range.isempty r = true ->
     Range.lower_inf r = false /\ Range.upper_inf r = false
     /\ Range.lower_inc r = false /\ Range.upper_inc r = false)
  /\ Range.lower_inf r && Range.lower_inc r = false
  /\ Range.upper_inf r && Range.upper_inc r = false
  /\ (Range.lower_inc r = true -> exists x, Range.lower r = Some x)
  /\ (Range.upper_inc r = true -> exists x, Range.upper r = Some x).
Proof.
  destruct r as [lo hi b].
  unfold Range.isempty, Range.lower_inf, Range.upper_inf, Range.lower_inc,
    Range.upper_inc, Range.lower, Range.upper.
  cbn [Range._lower Range._upper Range._bounds].
  destruct (str_bool b), lo as [x|], hi as [y|]; cbn;
    repeat split; try reflexivity; try discriminate;
    try (apply andb_false_r); eauto.
Qed.

(** X3. With both bounds present, the flag alone tells which bounds are
    included: the lower one for ["[)"] and ["[]"], the upper one for
    ["(]"] and ["[]"]. *)
Theorem included_bounds_of_flag (T : Type) (E : PyElem T)
    (a b : T) (f : string) (r : Range.t T) :
  Range.__init__ (Some a) (Some b) f false = Ok r ->
  Range.lower_inc r = bool_decide (f = "[)"%string \/ f = "[]"%string)
  /\ Range.upper_inc r = bool_decide (f = "(]"%string \/ f = "[]"%string)
  /\ Range.lower_inf r = false /\ Range.upper_inf r = false.
Proof.
  intros Hinit.
  destruct (init_cases _ _ _ _ _ Hinit) as [[? _]|(_ & Hf & ->)];
    [discriminate|].
  apply valid_bounds_inv in Hf.
  destruct Hf as [-> | [-> | [-> | ->]]]; repeat split; reflexivity.
Qed.

Lemma included_bounds_of_flag_witness :
  Range.lower_inc (Examples.int_range 1 5 "(]") = false
  /\ Range.upper_inc (Examples.int_range 1 5 "(]") = true.
Proof.
  destruct (included_bounds_of_flag Z int_elem 1 5 "(]"
              (Examples.int_range 1 5 "(]") eq_refl) as (Hlo & Hup & _).
  split; [exact Hlo | exact Hup].
Defined.

(** X4. The empty range is the least one: it is below every range that
    is not empty, and no such range is below it, whatever the
    elements. *)
Theorem empty_range_is_least (T : Type) (E : PyElem T)
    (lo hi : option T) (b : string) (r0 r : Range.t T) :
  Range.__init__ lo hi b true = Ok r0 ->
  Range.isempty r = false ->
  Range.__lt__ r0 r = true /\ Range.__lt__ r r0 = false
  /\ Range.__eq__ r0 r = false.
Proof.
  intros Hinit Hr. cbn in Hinit. injection Hinit as <-.
  destruct r as [lo' hi' b']. unfold Range.isempty in Hr. cbn in Hr.
  destruct b' as [|c b']; [discriminate|].
  unfold Range.__lt__, Range.__eq__, Range.__slots__.
  destruct lo' as [x|], hi' as [y|]; repeat split; reflexivity.
Qed.

Lemma empty_range_is_least_witness :
  Range.__lt__ (Range.mk None None "") (Range.mk (None : option Z) None "()")
  = true.
Proof.
  exact (proj1 (empty_range_is_least Z int_elem (Some 3) None "[]"
    (Range.mk None None "") (Range.mk None None "()") eq_refl eq_refl)).
Defined.

(** ** The order on ranges *)

Section StringOrder.

Lemma str_compare_refl (s : string) : String.compare s s = Eq.
Proof.
  pose proof (String.compare_antisym s s) as Hs.
  destruct (String.compare s s); [reflexivity|discriminate..].
Qed.

Lemma str_ltb_irrefl (s : string) : String.ltb s s = false.
Proof. unfold String.ltb. rewrite str_compare_refl. reflexivity. Qed.

Lemma str_ltb_total (s s' : string) :
  String.ltb s s' = true \/ s = s' \/ String.ltb s' s = true.
Proof.
  unfold String.ltb. rewrite (String.compare_antisym s' s).
  destruct (String.compare s s') eqn:Hc; cbn; auto.
  right. left. apply String.compare_eq_iff. exact Hc.
Qed.

Lemma ascii_compare_lt_trans (a b c : ascii) :
  Ascii.compare a b = Lt -> Ascii.compare b c = Lt -> Ascii.compare a c = Lt.
Proof.
  unfold Ascii.compare. rewrite !N.compare_lt_iff. lia.
Qed.

Lemma str_compare_lt_trans (s1 s2 s3 : string) :
  String.compare s1 s2 = Lt -> String.compare s2 s3 = Lt ->
  String.compare s1 s3 = Lt.
Proof.
  revert s2 s3. induction s1 as [|a s1 IH]; intros [|b s2] [|c s3]; cbn;
    try discriminate; try reflexivity.
  destruct (Ascii.compare a b) eqn:Hab; try discriminate.
  - apply Ascii.compare_eq_iff in Hab. subst b.
    destruct (Ascii.compare a c); try discriminate; [|reflexivity].
    intros. eapply IH; eassumption.
  - intros _. destruct (Ascii.compare b c) eqn:Hbc; try discriminate.
    + apply Ascii.compare_eq_iff in Hbc. subst c. rewrite Hab. reflexivity.
    + rewrite (ascii_compare_lt_trans a b c Hab Hbc). reflexivity.
Qed.

Lemma str_ltb_trans (s1 s2 s3 : string) :
  String.ltb s1 s2 = true -> String.ltb s2 s3 = true ->
  String.ltb s1 s3 = true.
Proof.
  unfold String.ltb. intros H12 H23.
  destruct (String.compare s1 s2) eqn:H1; try discriminate.
  destruct (String.compare s2 s3) eqn:H2; try discriminate.
  rewrite (str_compare_lt_trans s1 s2 s3 H1 H2). reflexivity.
Qed.

End StringOrder.

Section OrderFacts.
Context {T : Type} `{PyTotalOrder T}.

Lemma py_eq_refl (x : T) : py_eq x x = true.
Proof. apply py_eq_spec. reflexivity. Qed.

Lemma py_eq_false (x y : T) : x <> y -> py_eq x y = false.
Proof.
  intros Hne. destruct (py_eq x y) eqn:Heq; [|reflexivity].
  apply py_eq_spec in Heq. contradiction.
Qed.

Lemma opt_eq_spec (a b : option T) : Range.opt_eq a b = true <-> a = b.
Proof.
  destruct a as [x|], b as [y|]; cbn; try (split; congruence).
  rewrite py_eq_spec. split; congruence.
Qed.

Lemma opt_lt_irrefl (a : option T) : ~ Order.opt_lt a a.
Proof.
  destruct a as [x|]; cbn; [|tauto]. rewrite py_lt_irrefl. discriminate.
Qed.

Lemma opt_lt_trans (a b c : option T) :
  Order.opt_lt a b -> Order.opt_lt b c -> Order.opt_lt a c.
Proof.
  destruct a as [x|], b as [y|], c as [z|]; cbn; try tauto.
  apply py_lt_trans.
Qed.

Lemma opt_lt_total (a b : option T) :
  Order.opt_lt a b \/ a = b \/ Order.opt_lt b a.
Proof.
  destruct a as [x|], b as [y|]; cbn; auto.
  destruct (py_lt_total x y) as [?|[->|?]]; auto.
Qed.

(** [__lt__] is the lexicographic order in which [None] comes first. *)
Lemma lt_iff_lex (a b : Range.t T) :
  Range.__lt__ a b = true <-> Order.lex_lt a b.
Proof.
  destruct a as [lo hi f], b as [lo' hi' f'].
  unfold Range.__lt__, Range.__slots__, Order.lex_lt.
  cbn [Range.lt_loop Range.getattr Range._lower Range._upper Range._bounds].
  assert (Hstep : forall (u v : option T) (k : bool),
    (if Range.attr_eq (Range.of_option u) (Range.of_option v) then k
     else if Range.attr_is_None (Range.of_option u) then true
     else if Range.attr_is_None (Range.of_option v) then false
     else Range.attr_lt (Range.of_option u) (Range.of_option v)) = true
    <-> Order.opt_lt u v \/ (u = v /\ k = true)).
  { intros [x|] [y|] k; cbn.
    - destruct (py_eq x y) eqn:Heq.
      + apply py_eq_spec in Heq. subst y. rewrite py_lt_irrefl.
        split; [auto|]. intros [?|[_ ?]]; [discriminate|assumption].
      + split; [auto|]. intros [?|[[= ->] _]]; [assumption|].
        rewrite py_eq_refl in Heq. discriminate.
    - split; [discriminate|]. intros [[]|[? _]]. discriminate.
    - split; [auto|]. intros _. reflexivity.
    - split; [auto|]. intros [[]|[_ ?]]. assumption. }
  rewrite Hstep, Hstep. cbn.
  destruct (String.eqb_spec f f') as [->|Hne].
  - rewrite str_ltb_irrefl. intuition discriminate.
  - reflexivity.
Qed.

Lemma lex_lt_irrefl (a : Range.t T) : ~ Order.lex_lt a a.
Proof.
  unfold Order.lex_lt. intros [Hlo|[_ [Hhi|[_ Hb]]]].
  - exact (opt_lt_irrefl _ Hlo).
  - exact (opt_lt_irrefl _ Hhi).
  - rewrite str_ltb_irrefl in Hb. discriminate.
Qed.

Lemma lex_lt_trans (a b c : Range.t T) :
  Order.lex_lt a b -> Order.lex_lt b c -> Order.lex_lt a c.
Proof.
  destruct a as [lo1 hi1 f1], b as [lo2 hi2 f2], c as [lo3 hi3 f3].
  unfold Order.lex_lt. cbn. intros H12 H23.
  destruct H12 as [Hlo|[-> H12]].
  - destruct H23 as [Hlo'|[<- _]]; left; eauto using opt_lt_trans.
  - destruct H23 as [Hlo'|[-> H23]]; [left; assumption|].
    right. split; [reflexivity|].
    destruct H12 as [Hhi|[-> H12]].
    + destruct H23 as [Hhi'|[<- _]]; left; eauto using opt_lt_trans.
    + destruct H23 as [Hhi'|[-> H23]]; [left; assumption|].
      right. split; [reflexivity|]. eauto using str_ltb_trans.
Qed.

Lemma lex_lt_total (a b : Range.t T) :
  Order.lex_lt a b \/ a = b \/ Order.lex_lt b a.
Proof.
  destruct a as [lo hi f], b as [lo' hi' f']. unfold Order.lex_lt. cbn.
  destruct (opt_lt_total lo lo') as [?|[->|?]]; auto.
  destruct (opt_lt_total hi hi') as [?|[->|?]]; auto 6.
  destruct (str_ltb_total f f') as [?|[->|?]]; auto 8.
Qed.

Lemma eq_iff (a b : Range.t T) : Range.__eq__ a b = true <-> a = b.
Proof.
  destruct a as [lo hi f], b as [lo' hi' f']. unfold Range.__eq__. cbn.
  rewrite !andb_true_iff, !opt_eq_spec, String.eqb_eq.
  split; [intros [[-> ->] ->]; reflexivity | intros [= -> -> ->]; auto].
Qed.

End OrderFacts.

(** X5. Over a totally ordered element type, [__lt__] is a strict total
    order on ranges: no range is below itself, the relation is
    transitive, and of two different ranges one is below the other. *)
Theorem lt_is_strict_total_order (T : Type) (E : PyElem T) :
  PyTotalOrder T ->
  (forall a : Range.t T, Range.__lt__ a a = false)
  /\ (forall a b c : Range.t T,
        Range.__lt__ a b = true -> Range.__lt__ b c = true ->
        Range.__lt__ a c = true)
  /\ (forall a b : Range.t T,
        Range.__lt__ a b = true \/ a = b \/ Range.__lt__ b a = true).
Proof.
  intros Htot. split; [|split].
  - intros a. apply not_true_is_false. rewrite lt_iff_lex.
    apply lex_lt_irrefl.
  - intros a b c. rewrite !lt_iff_lex. apply lex_lt_trans.
  - intros a b. rewrite !lt_iff_lex. apply lex_lt_total.
Qed.

Lemma lt_is_strict_total_order_witness :
  Range.__lt__ (Range.mk None (Some 5) "[)") (Examples.int_range 1 9 "[]")
  = true.
Proof.
  apply (proj1 (proj2 (lt_is_strict_total_order Z int_elem int_total_order))
           _ (Examples.int_range 1 5 "[)") _); reflexivity.
Defined.

(** X6. Over a totally ordered element type the six comparisons of
    [Range] agree with one another: [<=] is the negation of [>], [>=]
    the negation of [<], [a <= b] is [b >= a], and [==] holds exactly
    when both [<=] and [>=] do. *)
Theorem comparisons_agree (T : Type) (E : PyElem T) :
  PyTotalOrder T ->
  forall a b : Range.t T,
    Range.__le__ a b = negb (Range.__gt__ a b)
    /\ Range.__ge__ a b = negb (Range.__lt__ a b)
    /\ Range.__le__ a b = Range.__ge__ b a
    /\ Range.__eq__ a b = Range.__le__ a b && Range.__ge__ a b
    /\ Range.__ne__ a b = Range.__lt__ a b || Range.__gt__ a b.
Proof.
  intros Htot a b.
  unfold Range.__le__, Range.__ge__, Range.__gt__, Range.__ne__.
  assert (Hirr : forall c : Range.t T, Range.__lt__ c c = false).
  { intros c. apply not_true_is_false. rewrite lt_iff_lex.
    apply lex_lt_irrefl. }
  destruct (Range.__eq__ a b) eqn:Heq.
  - apply eq_iff in Heq. subst b.
    assert (Hrefl : Range.__eq__ a a = true) by (apply eq_iff; reflexivity).
    rewrite Hirr, Hrefl. repeat split; reflexivity.
  - assert (Hne : a <> b).
    { intros ->. rewrite (proj2 (eq_iff b b) eq_refl) in Heq. discriminate. }
    assert (Hsym : Range.__eq__ b a = false).
    { apply not_true_is_false. rewrite eq_iff. congruence. }
    rewrite Hsym.
    destruct (Range.__lt__ a b) eqn:Hab, (Range.__lt__ b a) eqn:Hba;
      cbn; repeat split; try reflexivity; exfalso.
    + apply lt_iff_lex in Hab, Hba.
      exact (lex_lt_irrefl a (lex_lt_trans a b a Hab Hba)).
    + apply lt_iff_lex in Hab, Hba.
      exact (lex_lt_irrefl a (lex_lt_trans a b a Hab Hba)).
    + apply lt_iff_lex in Hab, Hba.
      exact (lex_lt_irrefl a (lex_lt_trans a b a Hab Hba)).
    + destruct (lex_lt_total a b) as [Hl|[?|Hl]]; [|contradiction|];
        apply lt_iff_lex in Hl; congruence.
    + destruct (lex_lt_total a b) as [Hl|[?|Hl]]; [|contradiction|];
        apply lt_iff_lex in Hl; congruence.
    + destruct (lex_lt_total a b) as [Hl|[?|Hl]]; [|contradiction|];
        apply lt_iff_lex in Hl; congruence.
Qed.

Lemma comparisons_agree_witness :
  Range.__le__ (Examples.int_range 1 5 "[)") (Examples.int_range 1 5 "[]")
  = negb (Range.__gt__ (Examples.int_range 1 5 "[)")
            (Examples.int_range 1 5 "[]")).
Proof.
  exact (proj1 (comparisons_agree Z int_elem int_total_order
                  (Examples.int_range 1 5 "[)") (Examples.int_range 1 5 "[]"))).
Defined.

(** ** Membership and the bounds *)

Section MemberFacts.
Context {T : Type} `{PyTotalOrder T}.

Lemma py_cmp_cases (x y : T) :
  (py_lt x y = true /\ py_lt y x = false
   /\ py_eq x y = false /\ py_eq y x = false)
  \/ x = y
  \/ (py_lt y x = true /\ py_lt x y = false
      /\ py_eq x y = false /\ py_eq y x = false).
Proof.
  assert (Hasym : forall u v : T, py_lt u v = true -> py_lt v u = false).
  { intros u v Huv. apply not_true_is_false. intros Hvu.
    pose proof (py_lt_trans u v u Huv Hvu) as Huu.
    rewrite py_lt_irrefl in Huu. discriminate. }
  assert (Hneq : forall u v : T, py_lt u v = true -> u <> v).
  { intros u v Huv ->. rewrite py_lt_irrefl in Huv. discriminate. }
  destruct (py_lt_total x y) as [Hlt|[->|Hgt]]; [left| right; left |right; right];
    try reflexivity.
  - repeat split; auto using py_eq_false.
    apply py_eq_false. intros ->. exact (Hneq _ _ Hlt eq_refl).
  - repeat split; auto using py_eq_false.
    apply py_eq_false. intros ->. exact (Hneq _ _ Hgt eq_refl).
Qed.

Ltac order_cases x y :=
  destruct (py_cmp_cases x y) as [(?&?&?&?)|[?|(?&?&?&?)]];
  subst;
  rewrite ?py_le_lt_eq, ?py_gt_lt, ?py_ge_le, ?py_le_lt_eq,
    ?py_lt_irrefl, ?py_eq_refl in *;
  repeat match goal with
    | Hr : _ = _ |- _ => rewrite Hr in *
    end.

Lemma contains_within_bounds (r : Range.t T) (x : T) :
  Range.__contains__ r x = true ->
  Range.isempty r = false
  /\ (forall lo, Range.lower r = Some lo -> py_le lo x = true)
  /\ (forall up, Range.upper r = Some up -> py_le x up = true).
Proof.
  destruct r as [lo hi b].
  unfold Range.__contains__, Range.isempty, Range.lower, Range.upper.
  cbn [Range._lower Range._upper Range._bounds].
  destruct (str_bool b); cbn [negb]; [|discriminate].
  intros Hin. split; [reflexivity|]. split.
  - intros lo' ->.
    destruct (str_at_is b 0 "["); order_cases x lo'; cbn in *;
      try discriminate; reflexivity.
  - intros up' ->.
    match type of Hin with
    | (if ?c then _ else _) = _ => destruct c
    end; [discriminate|].
    destruct (str_at_is b 1 "]"); order_cases x up'; cbn in *;
      try discriminate; reflexivity.
Qed.

Lemma py_le_cases (u v : T) :
  py_le u v = true -> py_lt u v = true \/ u = v.
Proof.
  rewrite py_le_lt_eq. intros Huv. apply orb_prop in Huv as [?|Heq]; auto.
  right. apply py_eq_spec. exact Heq.
Qed.

Lemma contains_crossed (lo up : T) (b : string) (x : T) :
  py_lt up lo = true ->
  Range.__contains__ (Range.mk (Some lo) (Some up) b) x = false.
Proof.
  intros Hcross. apply not_true_is_false. intros Hin.
  destruct (contains_within_bounds _ _ Hin) as (_ & Hlo & Hup).
  specialize (Hlo lo eq_refl). specialize (Hup up eq_refl).
  apply py_le_cases in Hlo, Hup.
  assert (Hle : py_lt lo up = true \/ lo = up).
  { destruct Hlo as [Hlo| ->], Hup as [Hup| ->]; eauto using py_lt_trans. }
  destruct Hle as [Hlt| ->].
  - pose proof (py_lt_trans _ _ _ Hlt Hcross) as Hirr.
    rewrite py_lt_irrefl in Hirr. discriminate.
  - rewrite py_lt_irrefl in Hcross. discriminate.
Qed.

Lemma contains_point (a : T) (b : string) (x : T) :
  b ∈ Range.valid_bounds ->
  Range.__contains__ (Range.mk (Some a) (Some a) b) x
  = bool_decide (b = "[]"%string) && py_eq x a.
Proof.
  intros Hb. apply valid_bounds_inv in Hb.
  unfold Range.__contains__.
  destruct Hb as [-> | [-> | [-> | ->]]]; cbn;
    order_cases x a; cbn; reflexivity.
Qed.

End MemberFacts.

(** X7. Over a totally ordered element type, a member of a range lies
    between its bounds: the range is not empty, a present lower bound
    is [<=] the member and the member is [<=] a present upper bound. *)
Theorem members_lie_within_bounds (T : Type) (E : PyElem T)
    (r : Range.t T) (x : T) :
  PyTotalOrder T ->
  Range.__contains__ r x = true ->
  Range.isempty r = false
  /\ (forall lo, Range.lower r = Some lo -> py_le lo x = true)
  /\ (forall up, Range.upper r = Some up -> py_le x up = true).
Proof. intros Htot. apply contains_within_bounds. Qed.

Lemma members_lie_within_bounds_witness :
  py_le 1 3 = true /\ py_le 3 10 = true.
Proof.
  destruct (members_lie_within_bounds Z int_elem
              (Examples.int_range 1 10 "()") 3 int_total_order eq_refl)
    as (_ & Hlo & Hup).
  split; [apply Hlo | apply Hup]; reflexivity.
Defined.

(** X8. [isempty] is about the flag, not about the members: a range
    built with two bounds is never empty for [isempty], yet it has no
    member when its upper bound is below its lower bound, and when the
    two bounds are one value [a] its only possible member is [a], and
    only for the flag ["[]"]. *)
Theorem bounded_range_may_have_no_member (T : Type) (E : PyElem T)
    (lo up : T) (f : string) (r : Range.t T) :
  PyTotalOrder T ->
  Range.__init__ (Some lo) (Some up) f false = Ok r ->
  Range.isempty r = false
  /\ (py_lt up lo = true -> forall x, Range.__contains__ r x = false)
  /\ (lo = up -> forall x,
        Range.__contains__ r x
        = bool_decide (f = "[]"%string) && py_eq x lo).
Proof.
  intros Htot Hinit.
  destruct (init_cases _ _ _ _ _ Hinit) as [[? _]|(_ & Hf & ->)];
    [discriminate|].
  split; [|split].
  - unfold Range.isempty. cbn. rewrite (valid_bounds_nonempty f Hf).
    reflexivity.
  - intros Hcross x. apply contains_crossed. exact Hcross.
  - intros <- x. apply contains_point. exact Hf.
Qed.

Lemma bounded_range_may_have_no_member_witness :
  Range.isempty (Examples.int_range 5 5 "[)") = false
  /\ Range.__contains__ (Examples.int_range 5 5 "[)") 5 = false.
Proof.
  destruct (bounded_range_may_have_no_member Z int_elem 5 5 "[)"
              (Examples.int_range 5 5 "[)") int_total_order eq_refl)
    as (Hne & _ & Hpoint).
  split; [exact Hne | exact (Hpoint eq_refl 5)].
Defined.

(** ** Further properties of RangeDumper *)

Section DumperMoreFacts.
Context {T : Type} `{PyElem T}.
Variable get_dumper : T -> Dumper T.

Lemma dump_nonempty_head (self : RangeDumper.t T) (obj : Range.t T) :
  Range.isempty obj = false ->
  exists (o : byte) (rest : bytes),
    RangeDumper.dump get_dumper self obj = o :: rest
    /\ (o = "["%byte \/ o = "("%byte).
Proof.
  intros Hempty. rewrite (dump_nonempty_tokens get_dumper self obj Hempty).
  unfold Documented.wire_tokens.
  destruct (Range.lower_inc obj); cbn; eauto.
Qed.

End DumperMoreFacts.

(** X9. The token [b"empty"] is the text of the empty ranges and of no
    other: a range that is not empty is written with a bracket
    first. *)
Theorem dump_is_empty_token_iff (T : Type) (E : PyElem T)
    (get_dumper : T -> Dumper T) (self : RangeDumper.t T)
    (obj : Range.t T) :
  RangeDumper.dump get_dumper self obj = B "empty"
  <-> Range.isempty obj = true.
Proof.
  split.
  - intros Hdump. destruct (Range.isempty obj) eqn:Hempty; [reflexivity|].
    destruct (dump_nonempty_head get_dumper self obj Hempty)
      as (o & rest & Heq & Ho).
    rewrite Heq in Hdump. injection Hdump as -> _.
    destruct Ho; discriminate.
  - unfold RangeDumper.dump, Range.isempty, Range.__bool__. intros ->.
    reflexivity.
Qed.

(** X10. [get_key] and [upgrade] agree: the key names a second class
    exactly when the upgraded dumper carries an element dumper, and
    that class is the element dumper's; the upgraded dumper keeps the
    class of the dumper it comes from. *)
Theorem get_key_matches_upgrade (T : Type) (E : PyElem T)
    (get_dumper : T -> Dumper T) (INVALID_OID default_oid : Z)
    (builtins : gmap Z RangeInfo.t)
    (self : RangeDumper.t T) (obj : Range.t T) :
  RangeDumper.get_key get_dumper self obj
  = RangeDumper.cls self
    :: match RangeDumper.sub_dumper
               (RangeDumper.upgrade get_dumper INVALID_OID builtins
                  default_oid self obj) with
       | Some sd => [d_cls sd]
       | None => []
       end
  /\ RangeDumper.cls
       (RangeDumper.upgrade get_dumper INVALID_OID builtins default_oid
          self obj) = RangeDumper.cls self.
Proof.
  unfold RangeDumper.get_key, RangeDumper.upgrade.
  destruct (RangeDumper._get_item obj) as [item|].
  - destruct (isinstance item ty_int); split; reflexivity.
  - split; reflexivity.
Qed.

(** X11. A range with no bound at all, and so every empty range, is not
    specialised: [upgrade] answers a plain dumper, with no element
    dumper and the oid of a fresh dumper, and the key is the range
    class alone. *)
Theorem unbounded_range_not_specialised (T : Type) (E : PyElem T)
    (get_dumper : T -> Dumper T) (INVALID_OID default_oid : Z)
    (builtins : gmap Z RangeInfo.t)
    (self : RangeDumper.t T) (obj : Range.t T) :
  (Range.lower obj = None /\ Range.upper obj = None)
  \/ (exists lo hi b, Range.__init__ lo hi b true = Ok obj) ->
  RangeDumper.upgrade get_dumper INVALID_OID builtins default_oid self obj
  = RangeDumper.mk (RangeDumper.cls self) None default_oid
  /\ RangeDumper.get_key get_dumper self obj = [RangeDumper.cls self].
Proof.
  intros Hobj.
  assert (Hitem : RangeDumper._get_item obj = None).
  { unfold RangeDumper._get_item.
    destruct Hobj as [[Hlo Hup]|(lo & hi & b & Hinit)].
    - rewrite Hlo. exact Hup.
    - cbn in Hinit. injection Hinit as <-. reflexivity. }
  unfold RangeDumper.upgrade, RangeDumper.get_key. rewrite Hitem.
  split; reflexivity.
Qed.

Lemma unbounded_range_not_specialised_witness :
  RangeDumper.get_key (fun _ => Examples.int_dumper)
    (RangeDumper.mk ty_Range None 0) (Range.mk None None "()")
  = [ty_Range].
Proof.
  exact (proj2 (unbounded_range_not_specialised Z int_elem
    (fun _ => Examples.int_dumper) 0 0 Examples.pg_builtins
    (RangeDumper.mk ty_Range None 0) (Range.mk None None "()")
    (or_introl (conj eq_refl eq_refl)))).
Defined.

(** ** Further properties of RangeLoader *)

(** X12. An empty range comes back from [load] as it went into [dump],
    whatever was passed along [empty=True]. *)
Theorem empty_round_trip (T : Type) (E : PyElem T)
    (get_dumper : T -> Dumper T) (get_loader : Z -> bytes -> result T)
    (subtype_oid : Z) (self : RangeDumper.t T)
    (lo hi : option T) (b : string) (r : Range.t T) :
  Range.__init__ lo hi b true = Ok r ->
  RangeLoader.load get_loader subtype_oid (RangeDumper.dump get_dumper self r)
  = Ok r.
Proof. cbn. intros [= <-]. reflexivity. Qed.

Lemma empty_round_trip_witness :
  RangeLoader.load Examples.int_get_loader 23
    (RangeDumper.dump (fun _ => Examples.int_dumper)
       (RangeDumper.mk ty_Range None 0) (Range.mk None None ""))
  = Ok (Range.mk None None "").
Proof.
  exact (empty_round_trip Z int_elem (fun _ => Examples.int_dumper)
           Examples.int_get_loader 23 (RangeDumper.mk ty_Range None 0)
           (Some 1) (Some 2) "[]" (Range.mk None None "") eq_refl).
Defined.

(** X13. A range with no lower bound comes back with the lower flag
    ["("], whatever it was: the bounds are kept, and the range is the
    same only if its flag was ["(]"] or ["()"]. *)
Theorem lower_unbounded_round_trip (T : Type) (E : PyElem T)
    (get_dumper : T -> Dumper T) (get_loader : Z -> bytes -> result T)
    (subtype_oid : Z) (self : RangeDumper.t T)
    (f : string) (b : T) (r : Range.t T) :
  Range.__init__ None (Some b) f false = Ok r ->
  Documented.verbatim_text (d_dump (get_dumper b) b) = true ->
  get_loader subtype_oid (d_dump (get_dumper b) b) = Ok b ->
  RangeLoader.load get_loader subtype_oid (RangeDumper.dump get_dumper self r)
  = Ok (Range.mk None (Some b) (if Range.upper_inc r then "(]" else "()"))
  /\ (RangeLoader.load get_loader subtype_oid
        (RangeDumper.dump get_dumper self r) = Ok r
      <-> f = "(]"%string \/ f = "()"%string).
Proof.
  intros Hinit Hv Hb.
  destruct (init_cases _ _ _ _ _ Hinit) as [[? _]|(_ & Hf & ->)];
    [discriminate|].
  assert (Hload := load_dump_nonempty get_dumper get_loader subtype_oid self
                     (Range.mk None (Some b) f)).
  rewrite Hload.
  - apply valid_bounds_inv in Hf.
    destruct Hf as [-> | [-> | [-> | ->]]]; cbn;
      (split; [reflexivity|]); split;
      try (intros [= ?]; discriminate); try (intros [?|?]; discriminate);
      auto.
  - unfold Range.isempty. cbn. rewrite (valid_bounds_nonempty f Hf).
    reflexivity.
  - intros x [=].
  - intros x [= <-]. assumption.
Qed.

Lemma lower_unbounded_round_trip_witness :
  RangeLoader.load Examples.int_get_loader 23
    (RangeDumper.dump (fun _ => Examples.int_dumper)
       (RangeDumper.mk ty_Range None 0) (Range.mk None (Some 5) "[)"))
  = Ok (Range.mk None (Some 5) "()").
Proof.
  exact (proj1 (lower_unbounded_round_trip Z int_elem
    (fun _ => Examples.int_dumper) Examples.int_get_loader 23
    (RangeDumper.mk ty_Range None 0) "[)" 5 (Range.mk None (Some 5) "[)")
    eq_refl eq_refl eq_refl)).
Defined.

(** X14. A range with no upper bound comes back with the upper flag
    [")"], whatever it was: the bounds are kept, and the range is the
    same only if its flag was ["[)"] or ["()"]. *)
Theorem upper_unbounded_round_trip (T : Type) (E : PyElem T)
    (get_dumper : T -> Dumper T) (get_loader : Z -> bytes -> result T)
    (subtype_oid : Z) (self : RangeDumper.t T)
    (f : string) (a : T) (r : Range.t T) :
  Range.__init__ (Some a) None f false = Ok r ->
  Documented.verbatim_text (d_dump (get_dumper a) a) = true ->
  get_loader subtype_oid (d_dump (get_dumper a) a) = Ok a ->
  RangeLoader.load get_loader subtype_oid (RangeDumper.dump get_dumper self r)
  = Ok (Range.mk (Some a) None (if Range.lower_inc r then "[)" else "()"))
  /\ (RangeLoader.load get_loader subtype_oid
        (RangeDumper.dump get_dumper self r) = Ok r
      <-> f = "[)"%string \/ f = "()"%string).
Proof.
  intros Hinit Hv Ha.
  destruct (init_cases _ _ _ _ _ Hinit) as [[? _]|(_ & Hf & ->)];
    [discriminate|].
  assert (Hload := load_dump_nonempty get_dumper get_loader subtype_oid self
                     (Range.mk (Some a) None f)).
  rewrite Hload.
  - apply valid_bounds_inv in Hf.
    destruct Hf as [-> | [-> | [-> | ->]]]; cbn;
      (split; [reflexivity|]); split;
      try (intros [= ?]; discriminate); try (intros [?|?]; discriminate);
      auto.
  - unfold Range.isempty. cbn. rewrite (valid_bounds_nonempty f Hf).
    reflexivity.
  - intros x [= <-]. assumption.
  - intros x [=].
Qed.

Lemma upper_unbounded_round_trip_witness :
  RangeLoader.load Examples.int_get_loader 23
    (RangeDumper.dump (fun _ => Examples.int_dumper)
       (RangeDumper.mk ty_Range None 0) (Range.mk (Some 1) None "[]"))
  = Ok (Range.mk (Some 1) None "[)").
Proof.
  exact (proj1 (upper_unbounded_round_trip Z int_elem
    (fun _ => Examples.int_dumper) Examples.int_get_loader 23
    (RangeDumper.mk ty_Range None 0) "[]" 1 (Range.mk (Some 1) None "[]")
    eq_refl eq_refl eq_refl)).
Defined.

(** X15. A range with no bound at all comes back with the flag ["()"];
    so [Range()], whose flag is ["[)"] by default, does not come back
    equal to itself. *)
Theorem unbounded_round_trip (T : Type) (E : PyElem T)
    (get_dumper : T -> Dumper T) (get_loader : Z -> bytes -> result T)
    (subtype_oid : Z) (self : RangeDumper.t T)
    (f : string) (r : Range.t T) :
  Range.__init__ None None f false = Ok r ->
  RangeLoader.load get_loader subtype_oid (RangeDumper.dump get_dumper self r)
  = Ok (Range.mk None None "()")
  /\ (f <> "()"%string -> Range.__eq__ (Range.mk None None "()") r = false).
Proof.
  intros Hinit.
  destruct (init_cases _ _ _ _ _ Hinit) as [[? _]|(_ & Hf & ->)];
    [discriminate|].
  assert (Hload := load_dump_nonempty get_dumper get_loader subtype_oid self
                     (Range.mk None None f)).
  rewrite Hload.
  - apply valid_bounds_inv in Hf.
    destruct Hf as [-> | [-> | [-> | ->]]]; cbn;
      (split; [reflexivity|]); intros Hne; try reflexivity; contradiction.
  - unfold Range.isempty. cbn. rewrite (valid_bounds_nonempty f Hf).
    reflexivity.
  - intros x [=].
  - intros x [=].
Qed.

Lemma unbounded_round_trip_witness :
  RangeLoader.load Examples.int_get_loader 23
    (RangeDumper.dump (fun _ => Examples.int_dumper)
       (RangeDumper.mk ty_Range None 0) (Range.mk None None "[)"))
  = Ok (Range.mk None None "()").
Proof.
  exact (proj1 (unbounded_round_trip Z int_elem
    (fun _ => Examples.int_dumper) Examples.int_get_loader 23
    (RangeDumper.mk ty_Range None 0) "[)" (Range.mk None None "[)")
    eq_refl)).
Defined.

(** X16. Whatever [load] returns honours the invariant of [Range]: from
    [b"empty"] the empty range, and from any other text a range whose
    flag is one of the four and is spelled by the first and the last
    byte of the text, which is then well formed. *)
Theorem load_returns_valid_range (T : Type) (E : PyElem T)
    (get_loader : Z -> bytes -> result T) (subtype_oid : Z)
    (data : bytes) (r : Range.t T) :
  RangeLoader.load get_loader subtype_oid data = Ok r ->
  (data = B "empty" /\ r = Range.mk None None "")
  \/ (data <> B "empty"
      /\ Documented.well_formed data = true
      /\ Range._bounds r ∈ Range.valid_bounds
      /\ exists (c c' : Z) (lo hi : string),
           bytes_first data = Ok c /\ bytes_last data = Ok c'
           /\ RangeLoader._int2parens !! c = Some lo
           /\ RangeLoader._int2parens !! c' = Some hi
           /\ Range._bounds r = (lo ++ hi)%string).
Proof. apply load_ok_inv. Qed.

Lemma load_returns_valid_range_witness :
  Range._bounds (Examples.int_range 1 2 "(]") ∈ Range.valid_bounds.
Proof.
  destruct (load_returns_valid_range Z int_elem Examples.int_get_loader 23
              (B "(1,2]") (Examples.int_range 1 2 "(]") eq_refl)
    as [[Hdata _]|(_ & _ & Hvalid & _)].
  - discriminate Hdata.
  - exact Hvalid.
Defined.

(** ** The state of a range *)

Section StateFacts.
Context {T : Type} `{PyElem T}.

Lemma slot_name_cases (k : string) :
  k ∈ RangeState.slot_names ->
  k = "_lower"%string \/ k = "_upper"%string \/ k = "_bounds"%string.
Proof.
  unfold RangeState.slot_names. rewrite !elem_of_cons, elem_of_nil. tauto.
Qed.

Lemma getstate_of_range (r : Range.t T) :
  RangeState.__getstate__ (RangeState.of_range r)
  = [("_lower"%string, Range.of_option (Range._lower r));
     ("_upper"%string, Range.of_option (Range._upper r));
     ("_bounds"%string, Range.attr_str (Range._bounds r))].
Proof.
  unfold RangeState.__getstate__, RangeState.of_range, RangeState.slot_names.
  cbn [omap list_omap].
  rewrite lookup_insert_eq.
  rewrite lookup_insert_ne, lookup_insert_eq by discriminate.
  rewrite !lookup_insert_ne, lookup_insert_eq by discriminate.
  reflexivity.
Qed.

Lemma setstate_valid (state : list (string * @Range.attr_value T))
    (self : gmap string (@Range.attr_value T)) :
  Forall (fun p => p.1 ∈ RangeState.slot_names) state ->
  RangeState.__setstate__ state self
  = RangeState.Done (foldl (fun o p => <[p.1 := p.2]> o) self state).
Proof.
  intros Hall. revert self.
  induction Hall as [|[k v] state Hk Hall IH]; intros self; cbn.
  - reflexivity.
  - rewrite bool_decide_eq_true_2 by exact Hk. apply IH.
Qed.

Lemma setstate_getstate (r : Range.t T)
    (self : gmap string (@Range.attr_value T)) :
  (forall k, is_Some (self !! k) -> k ∈ RangeState.slot_names) ->
  RangeState.__setstate__ (RangeState.__getstate__ (RangeState.of_range r))
    self
  = RangeState.Done (RangeState.of_range r).
Proof.
  intros Hself. rewrite getstate_of_range, setstate_valid.
  2:{ unfold RangeState.slot_names. repeat constructor; cbn; set_solver. }
  f_equal. cbn [foldl fst snd]. unfold RangeState.of_range.
  apply map_eq. intros k.
  destruct (decide (k = "_lower"%string)) as [->|Hlo];
    [by simplify_map_eq|].
  destruct (decide (k = "_upper"%string)) as [->|Hup];
    [by simplify_map_eq|].
  destruct (decide (k = "_bounds"%string)) as [->|Hb];
    [by simplify_map_eq|].
  rewrite !lookup_insert_ne, lookup_empty by congruence.
  destruct (self !! k) eqn:Hk; [|reflexivity].
  assert (Hin : k ∈ RangeState.slot_names) by (apply Hself; eauto).
  apply slot_name_cases in Hin. intuition congruence.
Qed.

Lemma to_range_of_range (r : Range.t T) :
  RangeState.to_range (RangeState.of_range r) = Some r.
Proof.
  unfold RangeState.to_range, RangeState.of_range.
  repeat (rewrite lookup_insert_eq || rewrite lookup_insert_ne by discriminate).
  destruct r as [[x|] [y|] b]; reflexivity.
Qed.

End StateFacts.

(** X17. The state of a range restores it: [__setstate__] applied to
    what [__getstate__] answered, on a fresh instance or on one whose
    slots are already set, leaves the instance of the original range,
    with its lower bound, upper bound and flag. *)
Theorem state_round_trip (T : Type) (E : PyElem T) (r : Range.t T)
    (self : gmap string (@Range.attr_value T)) :
  (forall k, is_Some (self !! k) -> k ∈ RangeState.slot_names) ->
  RangeState.__setstate__ (RangeState.__getstate__ (RangeState.of_range r))
    self
  = RangeState.Done (RangeState.of_range r)
  /\ RangeState.to_range (RangeState.of_range r) = Some r.
Proof.
  intros Hself. split.
  - apply setstate_getstate. exact Hself.
  - apply to_range_of_range.
Qed.

Lemma state_round_trip_witness :
  RangeState.__setstate__
    (RangeState.__getstate__
       (RangeState.of_range (Examples.int_range 1 5 "[)")))
    (RangeState.of_range (Range.mk None None ""))
  = RangeState.Done (RangeState.of_range (Examples.int_range 1 5 "[)")).
Proof.
  refine (proj1 (state_round_trip Z int_elem (Examples.int_range 1 5 "[)")
                   (RangeState.of_range (Range.mk None None "")) _)).
  intros k [v Hk]. unfold RangeState.of_range in Hk. cbn in Hk.
  unfold RangeState.slot_names.
  apply lookup_insert_Some in Hk as [[<- _]|[_ Hk]]; [set_solver|].
  apply lookup_insert_Some in Hk as [[<- _]|[_ Hk]]; [set_solver|].
  apply lookup_insert_Some in Hk as [[<- _]|[_ Hk]]; [set_solver|].
  rewrite lookup_empty in Hk. discriminate.
Defined.

(** X18. [__setstate__] is not all or nothing: when the state names an
    attribute that is no slot, [setattr] raises on it ([TypeError] for
    [__class__], [AttributeError] for any other name), and the items
    that came before it have already been set on the instance. *)
Theorem setstate_stops_at_unknown_slot (T : Type) (E : PyElem T)
    (pre rest : list (string * @Range.attr_value T))
    (k : string) (v : @Range.attr_value T)
    (self : gmap string (@Range.attr_value T)) :
  Forall (fun p => p.1 ∈ RangeState.slot_names) pre ->
  k ∉ RangeState.slot_names ->
  RangeState.__setstate__ (pre ++ (k, v) :: rest) self
  = (if String.eqb k "__class__" then RangeState.TypeError
     else RangeState.AttributeError)
      (foldl (fun o p => <[p.1 := p.2]> o) self pre).
Proof.
  intros Hall Hk. revert self.
  induction Hall as [|[k' v'] pre Hk' Hall IH]; intros self; cbn.
  - rewrite bool_decide_eq_false_2 by exact Hk.
    destruct (String.eqb k "__class__"); reflexivity.
  - rewrite bool_decide_eq_true_2 by exact Hk'. apply IH.
Qed.

Lemma setstate_stops_at_unknown_slot_witness :
  RangeState.__setstate__
    [("_bounds"%string, Range.attr_str "()");
     ("_empty"%string, Range.attr_None)]
    (RangeState.of_range (Examples.int_range 1 5 "[)"))
  = RangeState.AttributeError
      (<["_bounds"%string := Range.attr_str "()"]>
         (RangeState.of_range (Examples.int_range 1 5 "[)"))).
Proof.
  apply (setstate_stops_at_unknown_slot Z int_elem
           [("_bounds"%string, Range.attr_str "()")] []
           "_empty" Range.attr_None).
  - repeat constructor.
  - unfold RangeState.slot_names. rewrite !elem_of_cons, elem_of_nil.
    intros [?|[?|[?|[]]]]; discriminate.
Defined.

(** ** The text of a range and the C helper *)

(** X19. [str(r)] is ["empty"] for the empty ranges and for no other
    range built by [__init__]: otherwise it is the lower bracket of the
    flag, the two bounds around [", "] with [None] for an absent one,
    and the upper bracket. *)
Theorem str_is_empty_iff (T : Type) (E : PyElem T)
    (str_elem : T -> string)
    (lo hi : option T) (f : string) (e : bool) (r : Range.t T) :
  Range.__init__ lo hi f e = Ok r ->
  (RangeText.__str__ str_elem r = "empty"%string <-> e = true)
  /\ (e = false ->
        exists o c : ascii,
          f = String o (String c EmptyString)
          /\ RangeText.__str__ str_elem r
             = (String o (RangeText.str_opt str_elem lo) ++ ", "
                ++ RangeText.str_opt str_elem hi
                ++ String c EmptyString)%string).
Proof.
  intros Hinit.
  destruct (init_cases _ _ _ _ _ Hinit) as [[-> ->]|(-> & Hf & ->)].
  - split; [split; reflexivity|discriminate].
  - apply valid_bounds_inv in Hf.
    destruct Hf as [-> | [-> | [-> | ->]]];
      (split; [split; [cbn; intros [=] | discriminate]|]);
      intros _; do 2 eexists; (split; [reflexivity|]);
      unfold RangeText.__str__; cbn; reflexivity.
Qed.

Lemma str_is_empty_iff_witness :
  RangeText.__str__ (fun _ : Z => "7"%string) (Range.mk None (Some 7) "(]")
  <> "empty"%string.
Proof.
  intros Hstr.
  apply (proj1 (str_is_empty_iff Z int_elem (fun _ => "7"%string)
                  None (Some 7) "(]" false (Range.mk None (Some 7) "(]")
                  eq_refl)) in Hstr.
  discriminate Hstr.
Defined.

(** X20. [pg3_get_value] stores the length of the field and tells a
    NULL from an empty value: it answers [NULL] only for a field that
    is null, and, libpq giving null fields the length 0, for every such
    field; a field of length 0 that is not null is the empty string. *)
Theorem pg3_get_value_tells_null (PGresult : Type)
    (PQgetlength : PGresult -> Z -> Z -> Z)
    (PQgetvalue : PGresult -> Z -> Z -> bytes)
    (PQgetisnull : PGresult -> Z -> Z -> Z)
    (result : PGresult) (row column : Z) :
  (PQgetisnull result row column <> 0 -> PQgetlength result row column = 0) ->
  snd (PqCffi.pg3_get_value PQgetlength PQgetvalue PQgetisnull
         result row column) = PQgetlength result row column
  /\ (fst (PqCffi.pg3_get_value PQgetlength PQgetvalue PQgetisnull
             result row column) = None
      <-> PQgetisnull result row column <> 0)
  /\ (PQgetisnull result row column = 0 ->
      PQgetlength result row column = 0 ->
      fst (PqCffi.pg3_get_value PQgetlength PQgetvalue PQgetisnull
             result row column) = Some [])
  /\ (PQgetlength result row column <> 0 ->
      fst (PqCffi.pg3_get_value PQgetlength PQgetvalue PQgetisnull
             result row column) = Some (PQgetvalue result row column)).
Proof.
  intros Hnull. unfold PqCffi.pg3_get_value.
  destruct (Z.eqb_spec (PQgetlength result row column) 0) as [Hlen|Hlen];
    destruct (Z.eqb_spec (PQgetisnull result row column) 0) as [Hn|Hn];
    cbn; repeat split; try congruence; try tauto; try discriminate.
Qed.

Lemma pg3_get_value_tells_null_witness :
  fst (PqCffi.pg3_get_value (fun (_ : unit) _ _ => 0) (fun _ _ _ => [])
         (fun _ _ _ => 1) tt 0 0) = None.
Proof.
  apply (proj1 (proj2 (pg3_get_value_tells_null unit (fun _ _ _ => 0)
                         (fun _ _ _ => []) (fun _ _ _ => 1) tt 0 0
                         (fun _ => eq_refl)))).
  discriminate.
Defined.

Section LoaderEdgeFacts.
Context {T : Type} `{PyElem T}.
Variable get_loader : Z -> bytes -> result T.
Variable subtype_oid : Z.

Lemma int2parens_None (c : Z) :
  c ∉ [ord "["; ord "]"; ord "("; ord ")"] ->
  RangeLoader._int2parens !! c = None.
Proof.
  intros Hc. destruct (RangeLoader._int2parens !! c) as [s|] eqn:Hs;
    [|reflexivity].
  exfalso. apply Hc. apply int2parens_inv in Hs.
  rewrite !elem_of_cons. tauto.
Qed.

Lemma load_bad_bracket (data : bytes) (c c' : Z) :
  data <> B "empty" ->
  bytes_first data = Ok c -> bytes_last data = Ok c' ->
  c ∉ [ord "["; ord "]"; ord "("; ord ")"]
  \/ c' ∉ [ord "["; ord "]"; ord "("; ord ")"] ->
  RangeLoader.load get_loader subtype_oid data = Raise KeyError.
Proof.
  intros Hne Hfirst Hlast Hbad. unfold RangeLoader.load.
  rewrite bool_decide_eq_false_2 by exact Hne.
  rewrite Hfirst, Hlast. cbn [mbind result_bind].
  destruct (RangeLoader._int2parens !! c) as [lo|] eqn:Hlo.
  - rewrite (dict_getitem_Some _ _ _ Hlo). cbn [mbind result_bind].
    destruct Hbad as [Hc|Hc'].
    + rewrite (int2parens_None c Hc) in Hlo. discriminate.
    + rewrite (dict_getitem_None _ _ (int2parens_None c' Hc')). reflexivity.
  - rewrite (dict_getitem_None _ _ Hlo). reflexivity.
Qed.

End LoaderEdgeFacts.

(** X21. The errors of [load] at the edges of a text: the empty buffer
    raises [IndexError], and a text other than [b"empty"] whose first
    or last byte is none of the four brackets raises [KeyError], before
    any field is read. *)
Theorem load_edge_errors (T : Type) (E : PyElem T)
    (get_loader : Z -> bytes -> result T) (subtype_oid : Z) :
  RangeLoader.load get_loader subtype_oid [] = Raise IndexError
  /\ forall (data : bytes) (c c' : Z),
       data <> B "empty" ->
       bytes_first data = Ok c -> bytes_last data = Ok c' ->
       c ∉ [ord "["; ord "]"; ord "("; ord ")"]
       \/ c' ∉ [ord "["; ord "]"; ord "("; ord ")"] ->
       RangeLoader.load get_loader subtype_oid data = Raise KeyError.
Proof.
  split; [reflexivity|]. intros data c c'. apply load_bad_bracket.
Qed.

Lemma load_edge_errors_witness :
  RangeLoader.load Examples.int_get_loader 23 (B "[1,2>") = Raise KeyError.
Proof.
  apply (proj2 (load_edge_errors Z int_elem Examples.int_get_loader 23)
           (B "[1,2>") 91 62).
  - discriminate.
  - reflexivity.
  - reflexivity.
  - right. rewrite !elem_of_cons, elem_of_nil.
    intros [Hx|[Hx|[Hx|[Hx|[]]]]]; vm_compute in Hx; discriminate Hx.
Defined.

Section FlagOrderFacts.
Context {T : Type} `{PyTotalOrder T}.

Lemma lt_same_bounds (lo hi : option T) (f f' : string) :
  Range.__lt__ (Range.mk lo hi f) (Range.mk lo hi f') = String.ltb f f'.
Proof.
  apply eq_true_iff_eq. rewrite lt_iff_lex. unfold Order.lex_lt. cbn.
  split.
  - intros [Hlo|[_ [Hhi|[_ Hf]]]]; [| |exact Hf].
    + destruct (opt_lt_irrefl _ Hlo).
    + destruct (opt_lt_irrefl _ Hhi).
  - intros Hf. right. split; [reflexivity|]. right. split; [reflexivity|].
    exact Hf.
Qed.

End FlagOrderFacts.

(** X22. Ranges with the same bounds are ordered by their flags as
    strings, that is ["()"], ["(]"], ["[)"], ["[]"] in this order: the
    range that leaves its lower bound out comes before the one that
    includes it. *)
Theorem same_bounds_ordered_by_flag (T : Type) (E : PyElem T)
    (lo hi : option T) (f f' : string) (r r' : Range.t T) :
  PyTotalOrder T ->
  Range.__init__ lo hi f false = Ok r ->
  Range.__init__ lo hi f' false = Ok r' ->
  Range.__lt__ r r' = bool_decide (Order.flag_rank f < Order.flag_rank f')%nat.
Proof.
  intros Htot Hr Hr'.
  destruct (init_cases _ _ _ _ _ Hr) as [[? _]|(_ & Hf & ->)];
    [discriminate|].
  destruct (init_cases _ _ _ _ _ Hr') as [[? _]|(_ & Hf' & ->)];
    [discriminate|].
  rewrite lt_same_bounds.
  apply valid_bounds_inv in Hf, Hf'.
  destruct Hf as [-> | [-> | [-> | ->]]],
           Hf' as [-> | [-> | [-> | ->]]]; reflexivity.
Qed.

Lemma same_bounds_ordered_by_flag_witness :
  Range.__lt__ (Examples.int_range 1 5 "()") (Examples.int_range 1 5 "[)")
  = true.
Proof.
  exact (same_bounds_ordered_by_flag Z int_elem (Some 1) (Some 5) "()" "[)"
           (Examples.int_range 1 5 "()") (Examples.int_range 1 5 "[)")
           int_total_order eq_refl eq_refl).
Defined.
